(** * code_editor: the sandboxed execution pipeline

    A shallow embedding of
    - [backend/sandbox_runner.py]   (the in-process self-restriction layer),
    - [backend/src/app/schema.py]   (request and response models),
    - [backend/src/app/api.py]      (the [/execute] orchestrator),
    - [src/services/user_group.py]  (resolution of the run-as identity),
    with the operating system as an explicit, arbitrary environment. *)

From Stdlib Require Import ZArith String List Bool Lia DecimalString DecimalZ.
From stdpp Require Import base option list gmap sets strings.
Import ListNotations.
Local Open Scope string_scope.
Local Open Scope list_scope.
Local Open Scope Z_scope.

(** ** Python values shared by the modules *)

(** [str(n)] for a Python [int]. *)
Definition str (n : Z) : string := NilZero.string_of_int (Z.to_int n).

(** [int(s)] for a decimal literal, [None] for [ValueError]. *)
Definition int_of_str (s : string) : option Z :=
  match NilZero.int_of_string s with
  | Some d => Some (Z.of_int d)
  | None => None
  end.

(** Exceptions the scripts can meet.  All of them derive from
    [Exception]; [TimeoutExpired] is [subprocess.TimeoutExpired]. *)
Inductive exn : Type :=
  | OSError (msg : string)
  | ValueError (msg : string)
  | IndexError (msg : string)
  | SyntaxError (msg : string)
  | TimeoutExpired
  | GuestError (msg : string).

(** [str(e)] *)
Definition exn_str (e : exn) : string :=
  match e with
  | OSError m | ValueError m | IndexError m | SyntaxError m | GuestError m => m
  | TimeoutExpired => "Command timed out"
  end.

(** ** backend/sandbox_runner.py *)
Module SandboxRunner.

(** Constants for limits *)
Definition CPU_TIME_LIMIT : Z := 2.
Definition MEMORY_LIMIT : Z := 100 * 1024 * 1024.
Definition OUTPUT_LIMIT : Z := 5 * 1024 * 1024.

Inductive rlimit : Type := RLIMIT_CPU | RLIMIT_AS | RLIMIT_FSIZE.

(** *** pyseccomp: actions, argument comparisons, rules, filters *)
Definition EPERM : Z := 1.

Inductive action : Type :=
  | KILL
  | TRAP
  | ERRNO (e : Z)
  | LOG
  | ALLOW.

Inductive cmp_op : Type := NE | LT | LE | EQ | GE | GT.

(** [seccomp.Arg(index, op, datum)] *)
Record Arg : Type := mkArg { arg_index : nat; arg_op : cmp_op; arg_datum : Z }.

Record rule : Type :=
  mkRule { rule_action : action; rule_syscall : string; rule_args : list Arg }.

(** [seccomp.SyscallFilter(defaction=...)] followed by [add_rule] calls. *)
Record SyscallFilter : Type :=
  mkFilter { defaction : action; rules : list rule }.

Definition new_filter (d : action) : SyscallFilter := mkFilter d [].

Definition add_rule (f : SyscallFilter) (a : action) (name : string)
    (args : list Arg) : SyscallFilter :=
  mkFilter (defaction f) (rules f ++ [mkRule a name args]).

(** A system call as the kernel filter sees it: its name and registers. *)
Record syscall : Type := mkSyscall { sc_name : string; sc_args : list Z }.

Definition cmp_holds (op : cmp_op) (x d : Z) : bool :=
  match op with
  | NE => negb (x =? d)
  | LT => x <? d
  | LE => x <=? d
  | EQ => x =? d
  | GE => x >=? d
  | GT => x >? d
  end.

Definition arg_matches (sc : syscall) (a : Arg) : bool :=
  cmp_holds (arg_op a) (nth (arg_index a) (sc_args sc) 0) (arg_datum a).

Definition rule_matches (sc : syscall) (r : rule) : bool :=
  String.eqb (rule_syscall r) (sc_name sc) && forallb (arg_matches sc) (rule_args r).

(** What the loaded filter answers to a system call: the action of the
    first rule that matches, the default action when none does. *)
Definition filter_action (f : SyscallFilter) (sc : syscall) : action :=
  match find (rule_matches sc) (rules f) with
  | Some r => rule_action r
  | None => defaction f
  end.

(** *** The host the script runs on

    Every call into the operating system or a library can be refused;
    the host says which ones are. *)
Record host : Type := mkHost {
  setrlimit_ok : rlimit -> bool;
  filter_new_ok : bool;
  add_rule_ok : nat -> bool;
  load_ok : bool;
  stdout_fileno : Z;
  stderr_fileno : Z;
  argv : list string;
  read_file : string -> option string;
  compile_ok : string -> bool;
  (** what the guest code does once it runs: the exception it dies of, if any *)
  guest : string -> option exn
}.

(** What the process has done so far; an event is recorded when the
    step took effect. *)
Inductive event : Type :=
  | EvSetrlimit (r : rlimit) (soft hard : Z)
  | EvFilterNew (d : action)
  | EvAddRule (r : rule)
  | EvLoad (f : SyscallFilter)
  | EvRead (path : string)
  | EvExec (src : string).

(** A module body: statements run in sequence over the trace, an
    uncaught exception ends the run. *)
Definition M (A : Type) : Type := list event -> (exn + A) * list event.

Definition ret {A} (a : A) : M A := fun t => (inr a, t).
Definition raise {A} (e : exn) : M A := fun t => (inl e, t).
Definition bind {A B} (m : M A) (k : A -> M B) : M B :=
  fun t => match m t with
           | (inl e, t') => (inl e, t')
           | (inr a, t') => k a t'
           end.
Definition emit (ev : event) : M unit := fun t => (inr tt, t ++ [ev]).

Notation "x <- m ;; k" := (bind m (fun x => k))
  (at level 100, m at next level, right associativity).
Notation "m ;;; k" := (bind m (fun _ => k))
  (at level 100, right associativity).

Definition setrlimit (h : host) (r : rlimit) (soft hard : Z) : M unit :=
  if setrlimit_ok h r then emit (EvSetrlimit r soft hard)
  else raise (ValueError "current limit exceeds maximum limit").

Definition SyscallFilter_new (h : host) (d : action) : M SyscallFilter :=
  if filter_new_ok h then emit (EvFilterNew d) ;;; ret (new_filter d)
  else raise (OSError "seccomp_init").

(** [flt.add_rule(...)]; [n] is the position of the call in the script. *)
Definition flt_add_rule (h : host) (n : nat) (f : SyscallFilter) (a : action)
    (name : string) (args : list Arg) : M SyscallFilter :=
  if add_rule_ok h n
  then emit (EvAddRule (mkRule a name args)) ;;; ret (add_rule f a name args)
  else raise (OSError "seccomp_rule_add").

Definition flt_load (h : host) (f : SyscallFilter) : M unit :=
  if load_ok h then emit (EvLoad f) else raise (OSError "seccomp_load").

(** [sys.argv[1]] *)
Definition argv_1 (h : host) : M string :=
  match nth_error (argv h) 1 with
  | Some p => ret p
  | None => raise (IndexError "list index out of range")
  end.

(** [with open(code_file, "r") as f: code_source = f.read()], with the
    host answering for the read.  What the filter loaded in step 2 does
    to this very call is in [FilteredRunner] below. *)
Definition open_read (h : host) (path : string) : M string :=
  match read_file h path with
  | Some s => emit (EvRead path) ;;; ret s
  | None => raise (OSError path)
  end.

(** [exec(compile(code_source, code_file, "exec"), {})] *)
Definition exec_compile (h : host) (src : string) : M unit :=
  if compile_ok h src then
    emit (EvExec src) ;;;
    match guest h src with
    | Some e => raise e
    | None => ret tt
    end
  else raise (SyntaxError "invalid syntax").

(** The filter the script builds, lines 16 to 23. *)
Definition flt (h : host) : SyscallFilter :=
  let f0 := new_filter (ERRNO EPERM) in
  let f1 := add_rule f0 ALLOW "write" [mkArg 0 EQ (stdout_fileno h)] in
  let f2 := add_rule f1 ALLOW "write" [mkArg 0 EQ (stderr_fileno h)] in
  let f3 := add_rule f2 ALLOW "exit_group" [] in
  add_rule f3 ALLOW "exit" [].

(** The module body, top to bottom. *)
Definition main (h : host) : M unit :=
  (* 1. Set resource limits *)
  setrlimit h RLIMIT_CPU CPU_TIME_LIMIT CPU_TIME_LIMIT ;;;
  setrlimit h RLIMIT_AS MEMORY_LIMIT MEMORY_LIMIT ;;;
  setrlimit h RLIMIT_FSIZE OUTPUT_LIMIT OUTPUT_LIMIT ;;;
  (* 2. Apply seccomp filter *)
  f0 <- SyscallFilter_new h (ERRNO EPERM) ;;
  f1 <- flt_add_rule h 0 f0 ALLOW "write" [mkArg 0 EQ (stdout_fileno h)] ;;
  f2 <- flt_add_rule h 1 f1 ALLOW "write" [mkArg 0 EQ (stderr_fileno h)] ;;
  f3 <- flt_add_rule h 2 f2 ALLOW "exit_group" [] ;;
  f4 <- flt_add_rule h 3 f3 ALLOW "exit" [] ;;
  flt_load h f4 ;;;
  (* 3. Execute the user code *)
  code_file <- argv_1 h ;;
  code_source <- open_read h code_file ;;
  exec_compile h code_source.

(** Exit status of the interpreter: 0 when the module body ends, 1 when
    an exception reaches the top level. *)
Definition exit_status {A} (r : exn + A) : Z :=
  match r with inl _ => 1 | inr _ => 0 end.

(** One run of the process: what it did and how it ended. *)
Definition run (h : host) : list event * Z :=
  let '(r, t) := main h [] in (t, exit_status r).

(** The events of a completed setup, in order. *)
Definition setup_events (h : host) : list event :=
  [ EvSetrlimit RLIMIT_CPU CPU_TIME_LIMIT CPU_TIME_LIMIT;
    EvSetrlimit RLIMIT_AS MEMORY_LIMIT MEMORY_LIMIT;
    EvSetrlimit RLIMIT_FSIZE OUTPUT_LIMIT OUTPUT_LIMIT;
    EvFilterNew (ERRNO EPERM);
    EvAddRule (mkRule ALLOW "write" [mkArg 0 EQ (stdout_fileno h)]);
    EvAddRule (mkRule ALLOW "write" [mkArg 0 EQ (stderr_fileno h)]);
    EvAddRule (mkRule ALLOW "exit_group" []);
    EvAddRule (mkRule ALLOW "exit" []);
    EvLoad (flt h) ].

(** Every step of the setup is accepted by the host. *)
Definition setup_ok (h : host) : bool :=
  setrlimit_ok h RLIMIT_CPU && setrlimit_ok h RLIMIT_AS
  && setrlimit_ok h RLIMIT_FSIZE && filter_new_ok h
  && add_rule_ok h 0%nat && add_rule_ok h 1%nat
  && add_rule_ok h 2%nat && add_rule_ok h 3%nat && load_ok h.

(** *** Two hosts to run the script on *)

(** A host that accepts everything and a guest that prints and ends. *)
Definition willing_host : host :=
  mkHost (fun _ => true) true (fun _ => true) true 1 2
    ["sandbox_runner.py"; "/tmp/job.py"]
    (fun p => if String.eqb p "/tmp/job.py" then Some "print(1)" else None)
    (fun _ => true) (fun _ => None).

(** The same host with the address-space ceiling refused. *)
Definition refusing_host : host :=
  mkHost (fun r => match r with RLIMIT_AS => false | _ => true end)
    true (fun _ => true) true 1 2
    ["sandbox_runner.py"; "/tmp/job.py"]
    (fun p => if String.eqb p "/tmp/job.py" then Some "print(1)" else None)
    (fun _ => true) (fun _ => None).

End SandboxRunner.

(** ** backend/sandbox_runner.py under the filter it has loaded

    [flt.load()] hands the filter to the kernel, and from then on it
    answers every system call of the process, those of the script
    itself included.  [open(code_file, "r")] enters the kernel through
    [openat]. *)
Module FilteredRunner.
Import SandboxRunner.

(** [with open(code_file, "r") as f: code_source = f.read()] in a
    process whose loaded filter is [f]; [regs] are the registers of the
    [openat] call.  A call the filter does not let through does not
    open the file: with an ERRNO answer [open] raises an [OSError]
    (a KILL or TRAP answer ends the process by a signal at the same
    place). *)
Definition open_read_filtered (h : host) (f : SyscallFilter) (regs : list Z)
    (path : string) : M string :=
  match filter_action f (mkSyscall "openat" regs) with
  | ALLOW | LOG => open_read h path
  | ERRNO _ | KILL | TRAP => raise (OSError "Operation not permitted")
  end.

(** The module body, with the read of the code file under the filter
    of step 2. *)
Definition main_filtered (h : host) (regs : list Z) : M unit :=
  (* 1. Set resource limits *)
  setrlimit h RLIMIT_CPU CPU_TIME_LIMIT CPU_TIME_LIMIT ;;;
  setrlimit h RLIMIT_AS MEMORY_LIMIT MEMORY_LIMIT ;;;
  setrlimit h RLIMIT_FSIZE OUTPUT_LIMIT OUTPUT_LIMIT ;;;
  (* 2. Apply seccomp filter *)
  f0 <- SyscallFilter_new h (ERRNO EPERM) ;;
  f1 <- flt_add_rule h 0 f0 ALLOW "write" [mkArg 0 EQ (stdout_fileno h)] ;;
  f2 <- flt_add_rule h 1 f1 ALLOW "write" [mkArg 0 EQ (stderr_fileno h)] ;;
  f3 <- flt_add_rule h 2 f2 ALLOW "exit_group" [] ;;
  f4 <- flt_add_rule h 3 f3 ALLOW "exit" [] ;;
  flt_load h f4 ;;;
  (* 3. Execute the user code *)
  code_file <- argv_1 h ;;
  code_source <- open_read_filtered h f4 regs code_file ;;
  exec_compile h code_source.

Definition run_filtered (h : host) (regs : list Z) : list event * Z :=
  let '(r, t) := main_filtered h regs [] in (t, exit_status r).

End FilteredRunner.

(** ** backend/src/app/schema.py *)
Module Schema.

Record CodeRequest : Type := mkCodeRequest {
  code : string;
  timeout : Z
}.

Record CodeResponse : Type := mkCodeResponse {
  output : string;
  error : string;
  exit_code : Z
}.


(** A request body whose members, when present, have the declared JSON
    types: [code] a string, [timeout] an integer. *)
Record body : Type := mkBody {
  body_code : option string;
  body_timeout : option Z
}.

(** Validation of a body against [CodeRequest]: [code] is required,
    [timeout] has the default 5; the model declares no other
    constraint.  [None] is the 422 answer. *)
Definition validate (b : body) : option CodeRequest :=
  match body_code b with
  | None => None
  | Some c =>
      Some (mkCodeRequest c (match body_timeout b with
                             | Some t => t
                             | None => 5
                             end))
  end.



End Schema.

(** ** src/services/user_group.py *)
Module UserGroup.

(** Entries of the account databases read through [pwd] and [grp]. *)
Record passwd : Type := mkPasswd { pw_name : string; pw_uid : Z }.
Record group : Type := mkGroup { gr_name : string; gr_gid : Z }.

Record accounts : Type := mkAccounts {
  passwd_db : list passwd;
  group_db : list group
}.

(** [pwd.getpwnam(name)]; [None] is [KeyError]. *)
Definition getpwnam (db : accounts) (name : string) : option passwd :=
  find (fun e => String.eqb (pw_name e) name) (passwd_db db).

(** [grp.getgrnam(name)]; [None] is [KeyError]. *)
Definition getgrnam (db : accounts) (name : string) : option group :=
  find (fun e => String.eqb (gr_name e) name) (group_db db).

Definition possible_users : list string :=
  ["nobody"; "www-data"; "daemon"; "nginx"; "apache"].

Definition possible_groups : list string :=
  ["nobody"; "nogroup"; "www-data"; "daemon"; "nginx"; "apache"].

(** The loop of [_get_user] over the names still to try. *)
Fixpoint _get_user_from (db : accounts) (names : list string) : option string :=
  match names with
  | [] => None
  | username :: rest =>
      match getpwnam db username with
      | Some e => Some (pw_name e)
      | None => _get_user_from db rest
      end
  end.

Definition _get_user (db : accounts) : option string :=
  _get_user_from db possible_users.

Fixpoint _get_group_from (db : accounts) (names : list string) : option string :=
  match names with
  | [] => None
  | groupname :: rest =>
      match getgrnam db groupname with
      | Some e => Some (gr_name e)
      | None => _get_group_from db rest
      end
  end.

Definition _get_group (db : accounts) : option string :=
  _get_group_from db possible_groups.

(** Python truth value of [None] or a string. *)
Definition truthy (o : option string) : bool :=
  match o with
  | None => false
  | Some s => negb (String.eqb s "")
  end.

Definition _get_user_group (db : accounts) : string * string :=
  let user := _get_user db in
  let group := _get_group db in
  if negb (truthy user) || negb (truthy group) then ("65534", "65534")
  else (* both are strings here: [None] is not truthy *)
    (default "" user, default "" group).

Definition UNPRIVILEGED_USER (db : accounts) : string := fst (_get_user_group db).
Definition UNPRIVILEGED_GROUP (db : accounts) : string := snd (_get_user_group db).

(** A host with a [nobody] user but none of the candidate groups. *)
Definition lonely_nobody : accounts :=
  mkAccounts [mkPasswd "root" 0; mkPasswd "nobody" 65534] [mkGroup "root" 0].

End UserGroup.

(** ** backend/src/app/api.py *)
Module Api.
Import Schema.

(** [os.path.join(a, p)] for two components. *)
Definition os_path_join (a p : string) : string :=
  if String.prefix "/" p then p
  else if String.eqb a "" || String.eqb (String.substring (String.length a - 1) 1 a) "/"
       then a +:+ p
       else a +:+ "/" +:+ p.

(** *** The world the handler acts on *)

Definition SIGKILL : Z := 9.

(** An entry of the process table. *)
Record proc : Type := mkProc {
  proc_argv : list string;
  proc_parent : Z;
  proc_alive : bool
}.

Inductive event : Type :=
  | EvPopen (cmd : list string) (pid : Z)
  | EvCommunicate (pid : Z) (deadline : Z)
  | EvSignal (pid : Z) (signo : Z).

Record world : Type := mkWorld {
  dirs : gset string;
  files : gmap string string;
  procs : gmap Z proc;
  log : list event
}.

(** What [communicate] observes of the child. *)
Inductive observed : Type :=
  | Exited (stdout stderr : string) (returncode : Z)
  | Expired (descendants : list Z)
  | Failed (e : exn).

(** The answers of the environment during one request. *)
Record env : Type := mkEnv {
  uuid4 : string;
  mkdtemp : option string;
  write_ok : bool;
  spawn : option Z;
  observe : observed
}.

(** The handler's monad: the world is threaded, an exception
    propagates until a handler catches it. *)
Definition M (A : Type) : Type := world -> (exn + A) * world.

Definition ret {A} (a : A) : M A := fun w => (inr a, w).
Definition raise {A} (e : exn) : M A := fun w => (inl e, w).
Definition bind {A B} (m : M A) (k : A -> M B) : M B :=
  fun w => match m w with
           | (inl e, w') => (inl e, w')
           | (inr a, w') => k a w'
           end.
Definition modify (f : world -> world) : M unit := fun w => (inr tt, f w).

Notation "x <- m ;; k" := (bind m (fun x => k))
  (at level 100, m at next level, right associativity).
Notation "m ;;; k" := (bind m (fun _ => k))
  (at level 100, right associativity).

Definition add_dir (d : string) (w : world) : world :=
  mkWorld ({[d]} ∪ dirs w) (files w) (procs w) (log w).

(** [shutil.rmtree(d)]: the directory and everything below it. *)
Definition rmtree (d : string) (w : world) : world :=
  mkWorld (dirs w ∖ {[d]})
          (filter (fun kv => String.prefix (d +:+ "/") (fst kv) = false) (files w))
          (procs w) (log w).

Definition put_file (path content : string) (w : world) : world :=
  mkWorld (dirs w) (<[path := content]> (files w)) (procs w) (log w).

Definition put_proc (pid : Z) (p : proc) (w : world) : world :=
  mkWorld (dirs w) (files w) (<[pid := p]> (procs w)) (log w).

Definition set_alive (b : bool) (p : proc) : proc :=
  mkProc (proc_argv p) (proc_parent p) b.

Definition record (ev : event) (w : world) : world :=
  mkWorld (dirs w) (files w) (procs w) (log w ++ [ev]).

(** [with tempfile.TemporaryDirectory() as temp_dir: body].  The
    directory is new; leaving the block, by return or by exception,
    removes it.  This is the block when the removal goes through; the
    removal refused is in [with_TemporaryDirectory_os] below. *)
Definition with_TemporaryDirectory {A} (e : env) (body : string -> M A) : M A :=
  fun w =>
    match mkdtemp e with
    | None => (inl (OSError "mkdtemp"), w)
    | Some temp_dir =>
        if decide (temp_dir ∈ dirs w)
        then (inl (OSError "No usable temporary directory name found"), w)
        else
          let '(r, w') := body temp_dir (add_dir temp_dir w) in
          (r, rmtree temp_dir w')
    end.

(** [with open(file_path, "w") as f: f.write(content)] *)
Definition open_write (e : env) (file_path content : string) : M unit :=
  if write_ok e then modify (put_file file_path content)
  else raise (OSError file_path).

(** The process id of the server itself. *)
Definition server_pid : Z := 1.

(** [subprocess.Popen(cmd, stdout=PIPE, stderr=PIPE, text=True)]; the
    child stays in the process group of the server. *)
Definition Popen (e : env) (cmd : list string) : M Z :=
  match spawn e with
  | Some pid =>
      modify (fun w => record (EvPopen cmd pid)
                         (put_proc pid (mkProc cmd server_pid true) w)) ;;;
      ret pid
  | None => raise (OSError "nsjail")
  end.

(** Processes started below the child while it ran. *)
Definition add_descendants (parent : Z) (pids : list Z) (w : world) : world :=
  foldr (fun pid w' => put_proc pid (mkProc [] parent true) w') w pids.

Definition mark_exited (pid : Z) (w : world) : world :=
  mkWorld (dirs w) (files w) (alter (set_alive false) pid (procs w)) (log w).

(** [process.communicate(timeout=deadline)] followed by
    [process.returncode]. *)
Definition communicate (e : env) (pid : Z) (deadline : Z)
    : M (string * string * Z) :=
  modify (record (EvCommunicate pid deadline)) ;;;
  match observe e with
  | Exited stdout stderr returncode =>
      modify (mark_exited pid) ;;; ret (stdout, stderr, returncode)
  | Expired descendants =>
      modify (add_descendants pid descendants) ;;; raise TimeoutExpired
  | Failed ex => raise ex
  end.

(** [process.kill()]: SIGKILL is sent to the child, and to the child
    only.  Nothing is waited for: the entry of the child in the process
    table stays as it is until somebody reaps it. *)
Definition kill (pid : Z) : M unit :=
  modify (record (EvSignal pid SIGKILL)).

(** [try: body except subprocess.TimeoutExpired: handler] *)
Definition try_except_TimeoutExpired {A} (body handler : M A) : M A :=
  fun w =>
    match body w with
    | (inl TimeoutExpired, w') => handler w'
    | other => other
    end.

(** What the endpoint hands back to the framework. *)
Inductive reply : Type :=
  | Response (r : CodeResponse)
  | HTTPException (status_code : Z) (detail : string).

(** The status line and body the caller receives. *)
Definition http_status (r : reply) : Z :=
  match r with
  | Response _ => 200
  | HTTPException status_code _ => status_code
  end.


Section Endpoint.
(** [from src.services.user_group import UNPRIVILEGED_GROUP, UNPRIVILEGED_USER] *)
Variables UNPRIVILEGED_USER UNPRIVILEGED_GROUP : string.

Definition nsjail_cmd (request : CodeRequest) (temp_dir file_path : string)
    : list string :=
  [ "nsjail";
    "--quiet";
    "--mode";
    "o";
    "--time_limit";
    str (timeout request);
    "--rlimit_cpu";
    str (timeout request);
    "--rlimit_as";
    "100";
    "--chroot";
    "/";
    "--cwd";
    temp_dir;
    "--user";
    UNPRIVILEGED_USER;
    "--group";
    UNPRIVILEGED_GROUP;
    "--disable_proc";
    "--iface_no_lo";
    "--";
    "/usr/bin/python3";
    file_path ].

(** The body of the [with] block, lines 24 to 76. *)
Definition run_in (e : env) (request : CodeRequest) (temp_dir : string)
    : M CodeResponse :=
  let execution_id := uuid4 e in
  let file_path := os_path_join temp_dir (execution_id +:+ ".py") in
  open_write e file_path (code request) ;;;
  process <- Popen e (nsjail_cmd request temp_dir file_path) ;;
  res <- try_except_TimeoutExpired
           (communicate e process (timeout request + 1))
           (kill process ;;; ret ("", "Execution timed out", -1)) ;;
  let '(stdout, stderr, exit_code) := res in
  ret (mkCodeResponse stdout stderr exit_code).

(** [execute_code]: the outer [try] turns any exception into a 500. *)
Definition execute_code (e : env) (request : CodeRequest) (w : world)
    : reply * world :=
  match with_TemporaryDirectory e (run_in e request) w with
  | (inr response, w') => (Response response, w')
  | (inl ex, w') =>
      (HTTPException 500 ("Internal server error: " +:+ exn_str ex), w')
  end.
End Endpoint.

Section Outcomes.
Variables user group : string.
Variables (e : env) (request : CodeRequest) (w : world).

(** The path of the source file and the command line of one run. *)
Definition file_path (d : string) : string :=
  os_path_join d (uuid4 e +:+ ".py").

Definition command (d : string) : list string :=
  nsjail_cmd user group request d (file_path d).

(** The world at the moment the handler waits for the child. *)
Definition started (d : string) (pid : Z) : world :=
  record (EvCommunicate pid (timeout request + 1))
    (record (EvPopen (command d) pid)
       (put_proc pid (mkProc (command d) server_pid true)
          (put_file (file_path d) (code request) (add_dir d w)))).

(** All the ways a request can go. *)
Inductive outcome : reply * world -> Prop :=
  | NoDirectory (ex : exn) :
      outcome (HTTPException 500 ("Internal server error: " +:+ exn_str ex), w)
  | WriteFailed (d : string) :
      mkdtemp e = Some d -> d ∉ dirs w ->
      outcome (HTTPException 500 ("Internal server error: " +:+ file_path d),
               rmtree d (add_dir d w))
  | SpawnFailed (d : string) :
      mkdtemp e = Some d -> d ∉ dirs w ->
      outcome (HTTPException 500 "Internal server error: nsjail",
               rmtree d (put_file (file_path d) (code request) (add_dir d w)))
  | Completed (d : string) (pid : Z) (out err : string) (rc : Z) :
      mkdtemp e = Some d -> d ∉ dirs w -> spawn e = Some pid ->
      observe e = Exited out err rc ->
      outcome (Response (mkCodeResponse out err rc),
               rmtree d (mark_exited pid (started d pid)))
  | TimedOut (d : string) (pid : Z) (ds : list Z) :
      mkdtemp e = Some d -> d ∉ dirs w -> spawn e = Some pid ->
      observe e = Expired ds \/ (ds = [] /\ observe e = Failed TimeoutExpired) ->
      outcome (Response (mkCodeResponse "" "Execution timed out" (-1)),
               rmtree d (record (EvSignal pid SIGKILL)
                           (add_descendants pid ds (started d pid))))
  | Crashed (d : string) (pid : Z) (ex : exn) :
      mkdtemp e = Some d -> d ∉ dirs w -> spawn e = Some pid ->
      observe e = Failed ex -> ex <> TimeoutExpired ->
      outcome (HTTPException 500 ("Internal server error: " +:+ exn_str ex),
               rmtree d (started d pid)).

End Outcomes.

(** *** The removal of the directory can fail

    [TemporaryDirectory.__exit__] calls [shutil.rmtree], and like every
    other call into the operating system this one can be refused.  The
    exception is raised where the [with] block is left, in place of
    the value returned or the exception in flight, and the directory
    is still there. *)
Definition with_TemporaryDirectory_os {A} (e : env) (rmtree_ok : bool)
    (body : string -> M A) : M A :=
  fun w =>
    match mkdtemp e with
    | None => (inl (OSError "mkdtemp"), w)
    | Some temp_dir =>
        if decide (temp_dir ∈ dirs w)
        then (inl (OSError "No usable temporary directory name found"), w)
        else
          let '(r, w') := body temp_dir (add_dir temp_dir w) in
          if rmtree_ok then (r, rmtree temp_dir w')
          else (inl (OSError temp_dir), w')
    end.

(** [execute_code] with the answer of the operating system to the
    removal; [execute_code] above is the handler when the removal goes
    through. *)
Definition execute_code_os (UNPRIVILEGED_USER UNPRIVILEGED_GROUP : string)
    (e : env) (rmtree_ok : bool) (request : CodeRequest) (w : world)
    : reply * world :=
  match with_TemporaryDirectory_os e rmtree_ok
          (run_in UNPRIVILEGED_USER UNPRIVILEGED_GROUP e request) w with
  | (inr response, w') => (Response response, w')
  | (inl ex, w') =>
      (HTTPException 500 ("Internal server error: " +:+ exn_str ex), w')
  end.

(** The events a request added to the log. *)
Definition new_events (w w' : world) : list event :=
  drop (length (log w)) (log w').

Definition empty_world : world := mkWorld ∅ ∅ ∅ [].

(** *** Three environments *)

(** The child prints and exits in time. *)
Definition hello_env : env :=
  mkEnv "6f1c" (Some "/tmp/tmpa1") true (Some 4242)
        (Exited ("Hello, World!" +:+ String (Ascii.ascii_of_nat 10) "") "" 0).

(** The child outlives the deadline, with one process below it. *)
Definition runaway_env : env :=
  mkEnv "6f1c" (Some "/tmp/tmpa1") true (Some 4242) (Expired [4243]).

(** nsjail cannot be started. *)
Definition no_jail_env : env :=
  mkEnv "6f1c" (Some "/tmp/tmpa1") true None (Exited "" "" 0).

Definition hello_request : CodeRequest :=
  mkCodeRequest "print('Hello, World!')" 5.

Definition loop_request : CodeRequest :=
  mkCodeRequest "while True: pass" 2.

End Api.

(** ** What the launched command means

    The command line is read by nsjail, and what follows [--] is started
    inside the jail.  Both are outside the repository; this is the part
    of their behaviour the handler relies on. *)
Module Jail.
Import SandboxRunner.

(** Options of nsjail that are followed by a value. *)
Definition takes_value (opt : string) : bool :=
  existsb (String.eqb opt)
    ["--mode"; "--time_limit"; "--rlimit_cpu"; "--rlimit_as";
     "--chroot"; "--cwd"; "--user"; "--group"].

(** Left-to-right scan of the arguments: options with their values up
    to [--], then the command to run. *)
Fixpoint scan (toks : list string) : list (string * option string) * list string :=
  match toks with
  | [] => ([], [])
  | t :: rest =>
      if String.eqb t "--" then ([], rest)
      else if takes_value t then
        match rest with
        | v :: rest' =>
            let '(opts, cmd) := scan rest' in ((t, Some v) :: opts, cmd)
        | [] => ([(t, None)], [])
        end
      else
        let '(opts, cmd) := scan rest in ((t, None) :: opts, cmd)
  end.

Definition options (cmd : list string) : list (string * option string) :=
  fst (scan (tl cmd)).

Definition guest_argv (cmd : list string) : list string :=
  snd (scan (tl cmd)).

(** The value given to an option, if the option is present with one. *)
Fixpoint value_of (opt : string) (opts : list (string * option string))
    : option string :=
  match opts with
  | [] => None
  | (o, v) :: opts' => if String.eqb o opt then v else value_of opt opts'
  end.

(** Presence of a switch. *)
Definition has_switch (opt : string) (opts : list (string * option string)) : bool :=
  existsb (fun ov => String.eqb (fst ov) opt) opts.

Definition with_argv (h : host) (av : list string) : host :=
  mkHost (setrlimit_ok h) (filter_new_ok h) (add_rule_ok h) (load_ok h)
         (stdout_fileno h) (stderr_fileno h) av (read_file h)
         (compile_ok h) (guest h).

(** [python3 script args...]: the interpreter runs the named file as
    the main program.  When that file is [sandbox_runner.py] the run
    is the one of [SandboxRunner]; any other file is guest source and
    is executed as it is. *)
Definition python3 (runner_path : string) (h : host) (args : list string)
    : list event * Z :=
  match args with
  | [] => ([], 0)
  | script :: _ =>
      if String.eqb script runner_path then run (with_argv h args)
      else
        match read_file h script with
        | None => ([], 2)
        | Some src =>
            let '(r, t) := exec_compile h src [] in (t, exit_status r)
        end
  end.

(** The process nsjail starts for a command line. *)
Definition jailed_run (runner_path : string) (h : host) (cmd : list string)
    : list event * Z :=
  match guest_argv cmd with
  | _interpreter :: args => python3 runner_path h args
  | [] => ([], 0)
  end.

(** A host on which [path] holds [content]. *)
Definition with_file (h : host) (path content : string) : host :=
  mkHost (setrlimit_ok h) (filter_new_ok h) (add_rule_ok h) (load_ok h)
         (stdout_fileno h) (stderr_fileno h) (argv h)
         (fun p => if String.eqb p path then Some content else read_file h p)
         (compile_ok h) (guest h).

(** *** The jailed side of the hello request *)

Definition hello_command : list string :=
  Api.command "nobody" "nogroup" Api.hello_env Api.hello_request "/tmp/tmpa1".

Definition hello_host : host :=
  with_file willing_host "/tmp/tmpa1/6f1c.py" (Schema.code Api.hello_request).

Definition installed_runner : string := "/app/sandbox_runner.py".

End Jail.

(** ** backend/src/app/api.py: the [/test] endpoint *)
Module TestEndpoint.
Import Schema Api.

(** ['print("Hello, World!")'] *)
Definition dquote : string := String (Ascii.ascii_of_nat 34) "".
Definition test_code : string :=
  "print(" +:+ dquote +:+ "Hello, World!" +:+ dquote +:+ ")".

(** *** [os.path.dirname] *)

Definition is_sep (c : Ascii.ascii) : bool := Ascii.eqb c (Ascii.ascii_of_nat 47).

(** [p[:p.rfind('/') + 1]] *)
Fixpoint upto_last_sep (cs : list Ascii.ascii) : list Ascii.ascii :=
  match cs with
  | [] => []
  | c :: cs' =>
      match upto_last_sep cs' with
      | [] => if is_sep c then [c] else []
      | r => c :: r
      end
  end.

(** [head.rstrip('/')] *)
Fixpoint rstrip_sep (cs : list Ascii.ascii) : list Ascii.ascii :=
  match cs with
  | [] => []
  | c :: cs' =>
      match rstrip_sep cs' with
      | [] => if is_sep c then [] else [c]
      | r => c :: r
      end
  end.

Definition os_path_dirname (p : string) : string :=
  let head := upto_last_sep (list_ascii_of_string p) in
  if negb (forallb is_sep head)  (* head and head != sep * len(head) *)
  then string_of_list_ascii (rstrip_sep head)
  else string_of_list_ascii head.

(** *** The environment of one call *)

(** One child of [subprocess.run]: whether it starts, and what the wait
    on it observes. *)
Record child : Type := mkChild {
  child_spawn : option Z;
  child_observe : observed
}.

Record test_env : Type := mkTestEnv {
  temp_name : option string;
  temp_write_ok : bool;
  direct : child;
  jailed : child;
  unlink_ok : bool
}.

(** [subprocess.CompletedProcess] *)
Record CompletedProcess : Type := mkCompleted {
  cp_stdout : string;
  cp_stderr : string;
  cp_returncode : Z
}.

(** [with tempfile.NamedTemporaryFile(suffix=".py", delete=False) as temp:
       temp_path = temp.name; temp.write(content.encode())].
    The file is created under a name not in use and stays when the
    block is left, also when the write raises. *)
Definition NamedTemporaryFile_write (t : test_env) (content : string) : M string :=
  fun w =>
    match temp_name t with
    | None => (inl (OSError "mkstemp"), w)
    | Some temp_path =>
        if decide (is_Some (files w !! temp_path))
        then (inl (OSError "No usable temporary file name found"), w)
        else if temp_write_ok t
             then (inr temp_path, put_file temp_path content w)
             else (inl (OSError temp_path), put_file temp_path "" w)
    end.

(** [process.wait()]: the child is reaped. *)
Definition wait (pid : Z) : M unit := modify (mark_exited pid).

(** [subprocess.run(cmd, capture_output=True, text=True, timeout=...)]:
    the child is started and waited for; on a timeout, and on any other
    exception of the wait, it is killed and reaped before the exception
    goes on ([run] calls [process.wait()] after the kill, or leaves it
    to the [with Popen] block it runs in). *)
Definition subprocess_run (c : child) (cmd : list string) (timeout : Z)
    : M CompletedProcess :=
  match child_spawn c with
  | None => raise (OSError (hd "" cmd))
  | Some pid =>
      modify (fun w => record (EvPopen cmd pid)
                         (put_proc pid (mkProc cmd server_pid true) w)) ;;;
      modify (record (EvCommunicate pid timeout)) ;;;
      match child_observe c with
      | Exited stdout stderr returncode =>
          modify (mark_exited pid) ;;; ret (mkCompleted stdout stderr returncode)
      | Expired descendants =>
          modify (add_descendants pid descendants) ;;;
          kill pid ;;; wait pid ;;; raise TimeoutExpired
      | Failed ex => kill pid ;;; wait pid ;;; raise ex
      end
  end.

(** [os.unlink(path)] *)
Definition os_unlink (t : test_env) (path : string) : M unit :=
  if unlink_ok t
  then modify (fun w => mkWorld (dirs w) (delete path (files w)) (procs w) (log w))
  else raise (OSError path).

(** What the endpoint returns: the report of both runs, or
    [{"error": str(e)}]. *)
Inductive test_reply : Type :=
  | Report (python_direct nsjail : CompletedProcess) (config_user config_group : string)
  | Error (e : exn).

Section Endpoint.
Variables UNPRIVILEGED_USER UNPRIVILEGED_GROUP : string.

Definition test_nsjail_cmd (temp_path : string) : list string :=
  [ "nsjail";
    "--quiet";
    "--mode";
    "o";
    "--time_limit";
    "5";
    "--chroot";
    "/";
    "--cwd";
    os_path_dirname temp_path;
    "--user";
    UNPRIVILEGED_USER;
    "--group";
    UNPRIVILEGED_GROUP;
    "--";
    "/usr/bin/python3";
    temp_path ].

(** The body of the [try], lines 88 to 137. *)
Definition test_body (t : test_env) : M test_reply :=
  temp_path <- NamedTemporaryFile_write t test_code ;;
  (* Execute Python directly without nsjail first *)
  python <- subprocess_run (direct t) ["/usr/bin/python3"; temp_path] 5 ;;
  process <- subprocess_run (jailed t) (test_nsjail_cmd temp_path) 6 ;;
  os_unlink t temp_path ;;;
  ret (Report python process UNPRIVILEGED_USER UNPRIVILEGED_GROUP).

(** [test_endpoint]: any exception becomes an error report. *)
Definition test_endpoint (t : test_env) (w : world) : test_reply * world :=
  match test_body t w with
  | (inr r, w') => (r, w')
  | (inl ex, w') => (Error ex, w')
  end.
End Endpoint.

(** *** Two environments *)

Definition hello_output : string :=
  "Hello, World!" +:+ String (Ascii.ascii_of_nat 10) "".

(** Both runs print and exit. *)
Definition healthy_test_env : test_env :=
  mkTestEnv (Some "/tmp/tmpq7.py") true
    (mkChild (Some 500) (Exited hello_output "" 0))
    (mkChild (Some 501) (Exited hello_output "" 0)) true.

(** The interpreter works, nsjail is not installed. *)
Definition no_jail_test_env : test_env :=
  mkTestEnv (Some "/tmp/tmpq7.py") true
    (mkChild (Some 500) (Exited hello_output "" 0))
    (mkChild None (Exited "" "" 0)) true.

End TestEndpoint.

(** * Properties *)

(** ** The self-restriction layer *)
Module SandboxRunnerSpec.
Import SandboxRunner.

Lemma no_exec_in_setup (h : host) (n : nat) (src : string) :
  EvExec src ∉ take n (setup_events h).
Proof.
  intros Hin. apply (subseteq_take n) in Hin. unfold setup_events in Hin.
  repeat (apply elem_of_cons in Hin as [Hin | Hin]; [discriminate |]).
  by apply elem_of_nil in Hin.
Qed.

(** Whatever the host answers, the setup part of the trace is an
    initial segment of [setup_events], and it is all of it exactly when
    every setup step was accepted. *)
(** The step that is refused ends the run after [n] events. *)
Ltac refused n :=
  right; unfold bind, setrlimit, SyscallFilter_new, flt_add_rule, flt_load;
  repeat match goal with E : _ = true |- _ => rewrite E; clear E end;
  match goal with E : _ = false |- _ => rewrite E end;
  cbn; repeat split; exists n; reflexivity.

Lemma main_trace_shape (h : host) :
  (setup_ok h = true /\
     exists tl, fst (run h) = setup_events h ++ tl /\
       (tl = [] \/ (exists p, tl = [EvRead p]) \/
        exists p src, tl = [EvRead p; EvExec src] /\
          nth_error (argv h) 1 = Some p /\ read_file h p = Some src)) \/
  (setup_ok h = false /\ snd (run h) = 1 /\
     exists n, fst (run h) = take n (setup_events h)).
Proof.
  unfold run, main, setup_ok.
  destruct (setrlimit_ok h RLIMIT_CPU) eqn:E1; [| refused 0%nat].
  destruct (setrlimit_ok h RLIMIT_AS) eqn:E2; [| refused 1%nat].
  destruct (setrlimit_ok h RLIMIT_FSIZE) eqn:E3; [| refused 2%nat].
  destruct (filter_new_ok h) eqn:E4; [| refused 3%nat].
  destruct (add_rule_ok h 0%nat) eqn:E5; [| refused 4%nat].
  destruct (add_rule_ok h 1%nat) eqn:E6; [| refused 5%nat].
  destruct (add_rule_ok h 2%nat) eqn:E7; [| refused 6%nat].
  destruct (add_rule_ok h 3%nat) eqn:E8; [| refused 7%nat].
  destruct (load_ok h) eqn:E9; [| refused 8%nat].
  left. split; [reflexivity |].
  unfold bind, setrlimit, SyscallFilter_new, flt_add_rule, flt_load, argv_1, open_read,
    exec_compile.
  rewrite E1, E2, E3, E4, E5, E6, E7, E8, E9. cbn.
  destruct (argv h) as [| a0 [| code_file rest]]; cbn;
    [exists []; auto | exists []; auto |].
  destruct (read_file h code_file) as [code_source |] eqn:Er; cbn;
    [| exists []; auto].
  destruct (compile_ok h code_source); cbn;
    [| exists [EvRead code_file]; eauto].
  destruct (guest h code_source); cbn;
    exists [EvRead code_file; EvExec code_source]; eauto 10.
Qed.

(** C1.  Guest code runs only after the three resource ceilings were
    applied, the filter was constructed (default action and the four
    rules) and loaded, in exactly this order; and when any setup step is
    refused the process ends with status 1 and the guest never runs. *)
Theorem guest_runs_only_after_setup (h : host) :
  (forall src, EvExec src ∈ fst (run h) ->
     setup_ok h = true /\
     exists path, fst (run h) = setup_events h ++ [EvRead path; EvExec src]) /\
  (setup_ok h = false ->
     snd (run h) = 1 /\ forall src, EvExec src ∉ fst (run h)).
Proof.
  split.
  - intros src Hin.
    destruct (main_trace_shape h) as [[Hok (tl & Ht & Htl)] | (Hko & _ & n & Ht)].
    + split; [exact Hok |]. rewrite Ht in Hin |- *.
      destruct Htl as [-> | [[p ->] | (p & s & -> & _)]].
      * rewrite app_nil_r in Hin.
        exfalso. apply (no_exec_in_setup h (length (setup_events h)) src).
        by rewrite firstn_all.
      * apply elem_of_app in Hin as [Hin | Hin].
        -- exfalso. apply (no_exec_in_setup h (length (setup_events h)) src).
           by rewrite firstn_all.
        -- apply list_elem_of_singleton in Hin. discriminate.
      * apply elem_of_app in Hin as [Hin | Hin].
        -- exfalso. apply (no_exec_in_setup h (length (setup_events h)) src).
           by rewrite firstn_all.
        -- apply elem_of_cons in Hin as [Hin | Hin]; [discriminate |].
           apply list_elem_of_singleton in Hin. injection Hin as <-.
           by exists p.
    + rewrite Ht in Hin. by apply no_exec_in_setup in Hin.
  - intros Hko.
    destruct (main_trace_shape h) as [[Hok _] | (_ & Hst & n & Ht)]; [congruence |].
    split; [exact Hst |]. intros src. rewrite Ht. apply no_exec_in_setup.
Qed.

Lemma guest_runs_only_after_setup_witness :
  (EvExec "print(1)" ∈ fst (run willing_host) /\
   exists path, fst (run willing_host)
                = setup_events willing_host ++ [EvRead path; EvExec "print(1)"]) /\
  (setup_ok refusing_host = false /\ snd (run refusing_host) = 1).
Proof.
  split.
  - assert (Hin : EvExec "print(1)" ∈ fst (run willing_host)).
    { apply list_elem_of_In. vm_compute. tauto. }
    split; [exact Hin |].
    exact (proj2 (proj1 (guest_runs_only_after_setup willing_host) _ Hin)).
  - split; [reflexivity |].
    exact (proj1 (proj2 (guest_runs_only_after_setup refusing_host) eq_refl)).
Defined.

Lemma filter_action_flt (h : host) (sc : syscall) :
  filter_action (flt h) sc =
    if rule_matches sc (mkRule ALLOW "write" [mkArg 0 EQ (stdout_fileno h)])
       || rule_matches sc (mkRule ALLOW "write" [mkArg 0 EQ (stderr_fileno h)])
       || rule_matches sc (mkRule ALLOW "exit_group" [])
       || rule_matches sc (mkRule ALLOW "exit" [])
    then ALLOW else ERRNO EPERM.
Proof.
  unfold filter_action, flt. cbn [rules add_rule new_filter app defaction find].
  repeat match goal with
         | |- context [if rule_matches sc ?r then _ else _] =>
             destruct (rule_matches sc r); cbn [orb rule_action]; try reflexivity
         end.
Qed.

(** C2.  The filter the script loads allows exactly [write] on the
    stdout descriptor, [write] on the stderr descriptor, [exit] and
    [exit_group]; any other call gets the error EPERM, not a kill. *)
Theorem filter_allows_exactly (h : host) (sc : syscall) :
  (forall f, EvLoad f ∈ fst (run h) -> f = flt h) /\
  (filter_action (flt h) sc = ALLOW <->
     (sc_name sc = "write" /\ nth 0 (sc_args sc) 0 = stdout_fileno h) \/
     (sc_name sc = "write" /\ nth 0 (sc_args sc) 0 = stderr_fileno h) \/
     sc_name sc = "exit" \/ sc_name sc = "exit_group") /\
  (filter_action (flt h) sc = ALLOW \/ filter_action (flt h) sc = ERRNO EPERM).
Proof.
  split; [| split].
  - intros f Hin.
    assert (Hsetup : forall n, EvLoad f ∈ take n (setup_events h) -> f = flt h).
    { intros n Hn. apply (subseteq_take n) in Hn. unfold setup_events in Hn.
      repeat (apply elem_of_cons in Hn as [Hn | Hn]; [discriminate |]).
      apply list_elem_of_singleton in Hn. congruence. }
    destruct (main_trace_shape h) as [[_ (tl & Ht & Htl)] | (_ & _ & n & Ht)];
      rewrite Ht in Hin; [| by apply Hsetup in Hin].
    apply elem_of_app in Hin as [Hin | Hin].
    + apply (Hsetup (length (setup_events h))). by rewrite firstn_all.
    + exfalso. destruct Htl as [-> | [[p ->] | (p & s & -> & _)]].
      * by apply elem_of_nil in Hin.
      * apply list_elem_of_singleton in Hin. discriminate.
      * apply elem_of_cons in Hin as [Hin | Hin]; [discriminate |].
        apply list_elem_of_singleton in Hin. discriminate.
  - rewrite filter_action_flt. unfold rule_matches, arg_matches.
    cbn [rule_syscall rule_args forallb arg_index arg_op arg_datum cmp_holds].
    rewrite !andb_true_r.
    destruct (String.eqb_spec "write" (sc_name sc)) as [Hw | Hw];
      destruct (String.eqb_spec "exit_group" (sc_name sc)) as [Hg | Hg];
      destruct (String.eqb_spec "exit" (sc_name sc)) as [He | He];
      destruct (Z.eqb_spec (nth 0 (sc_args sc) 0) (stdout_fileno h)) as [Ho | Ho];
      destruct (Z.eqb_spec (nth 0 (sc_args sc) 0) (stderr_fileno h)) as [Hr | Hr];
      cbn [andb orb]; (split; [intros Ha | intros Hb]); try congruence; try tauto;
      try (destruct Hb as [[? ?] | [[? ?] | [? | ?]]]; congruence);
      symmetry in Hw || idtac; symmetry in He || idtac; symmetry in Hg || idtac;
      tauto.

  - rewrite filter_action_flt.
    match goal with |- context [if ?b then _ else _] => destruct b end; auto.
Qed.


Lemma filter_allows_exactly_witness :
  filter_action (flt willing_host) (mkSyscall "write" [2; 140737; 12]) = ALLOW.
Proof.
  apply (proj1 (proj2 (filter_allows_exactly willing_host
                         (mkSyscall "write" [2; 140737; 12])))).
  right. left. split; reflexivity.
Defined.

(** A few calls the guest may try on the willing host. *)
Example write_to_other_fd_denied :
  filter_action (flt willing_host) (mkSyscall "write" [3; 140737; 12]) = ERRNO EPERM.
Proof. reflexivity. Qed.

Example socket_denied :
  filter_action (flt willing_host) (mkSyscall "socket" [2; 1; 0]) = ERRNO EPERM.
Proof. reflexivity. Qed.

Example exit_group_allowed :
  filter_action (flt willing_host) (mkSyscall "exit_group" [0]) = ALLOW.
Proof. reflexivity. Qed.

End SandboxRunnerSpec.

(** ** Identity resolution *)
Module UserGroupSpec.
Import UserGroup.

Lemma getpwnam_name (db : accounts) (name : string) (e : passwd) :
  getpwnam db name = Some e -> pw_name e = name.
Proof.
  unfold getpwnam. intros H. apply find_some in H as [_ H].
  by apply String.eqb_eq in H.
Qed.

Lemma getgrnam_name (db : accounts) (name : string) (e : group) :
  getgrnam db name = Some e -> gr_name e = name.
Proof.
  unfold getgrnam. intros H. apply find_some in H as [_ H].
  by apply String.eqb_eq in H.
Qed.

Lemma _get_user_from_elem (db : accounts) (names : list string) (u : string) :
  _get_user_from db names = Some u -> u ∈ names.
Proof.
  induction names as [| n names IH]; cbn; [discriminate |].
  destruct (getpwnam db n) as [e |] eqn:E.
  - intros [= <-]. apply getpwnam_name in E as ->. apply list_elem_of_here.
  - intros H. apply list_elem_of_further. auto.
Qed.

Lemma _get_group_from_elem (db : accounts) (names : list string) (g : string) :
  _get_group_from db names = Some g -> g ∈ names.
Proof.
  induction names as [| n names IH]; cbn; [discriminate |].
  destruct (getgrnam db n) as [e |] eqn:E.
  - intros [= <-]. apply getgrnam_name in E as ->. apply list_elem_of_here.
  - intros H. apply list_elem_of_further. auto.
Qed.

Lemma truthy_candidate (names : list string) (u : string) :
  "" ∉ names -> u ∈ names -> truthy (Some u) = true.
Proof.
  intros Hne Hin. cbn. destruct (String.eqb_spec u ""); [subst; contradiction | done].
Qed.

Lemma possible_users_nonempty : "" ∉ possible_users.
Proof. unfold possible_users. intros H. by repeat (apply elem_of_cons in H as [H | H]; [discriminate |]); apply elem_of_nil in H. Qed.

Lemma possible_groups_nonempty : "" ∉ possible_groups.
Proof. unfold possible_groups. intros H. by repeat (apply elem_of_cons in H as [H | H]; [discriminate |]); apply elem_of_nil in H. Qed.

(** C10.  The resolved pair is all-or-nothing: when either lookup finds
    no name both members are "65534", even if the other lookup found
    one; otherwise both are the names found, taken from the candidate
    lists.  No other value, in particular not "root", can come out. *)
Theorem identity_all_or_nothing (db : accounts) :
  (_get_user db = None \/ _get_group db = None ->
     _get_user_group db = ("65534", "65534")) /\
  (_get_user_group db = ("65534", "65534") \/
   exists u g, _get_user db = Some u /\ _get_group db = Some g /\
               u ∈ possible_users /\ g ∈ possible_groups /\
               _get_user_group db = (u, g)) /\
  (UNPRIVILEGED_USER db ∈ "65534" :: possible_users) /\
  (UNPRIVILEGED_GROUP db ∈ "65534" :: possible_groups) /\
  UNPRIVILEGED_USER db <> "root" /\ UNPRIVILEGED_GROUP db <> "root".
Proof.
  assert (Hshape :
    (_get_user db = None \/ _get_group db = None ->
       _get_user_group db = ("65534", "65534")) /\
    (_get_user_group db = ("65534", "65534") \/
     exists u g, _get_user db = Some u /\ _get_group db = Some g /\
                 u ∈ possible_users /\ g ∈ possible_groups /\
                 _get_user_group db = (u, g))).
  { unfold _get_user_group.
    destruct (_get_user db) as [u |] eqn:Eu; destruct (_get_group db) as [g |] eqn:Eg.
    - pose proof (_get_user_from_elem _ _ _ Eu) as Hu.
      pose proof (_get_group_from_elem _ _ _ Eg) as Hg.
      rewrite (truthy_candidate _ _ possible_users_nonempty Hu).
      rewrite (truthy_candidate _ _ possible_groups_nonempty Hg).
      cbn [negb orb default]. split.
      + intros [? | ?]; discriminate.
      + right. exists u, g. auto.
    - rewrite orb_true_r. auto.
    - cbn [truthy negb orb]. auto.
    - cbn [truthy negb orb]. auto. }
  destruct Hshape as [Hnone Hcases]. split; [exact Hnone |]. split; [exact Hcases |].
  unfold UNPRIVILEGED_USER, UNPRIVILEGED_GROUP.
  destruct Hcases as [-> | (u & g & _ & _ & Hu & Hg & ->)]; cbn [fst snd].
  - repeat split; try apply list_elem_of_here; discriminate.
  - repeat split; try (by apply list_elem_of_further).
    + intros ->. unfold possible_users in Hu.
      by repeat (apply elem_of_cons in Hu as [Hu | Hu]; [discriminate |]);
        apply elem_of_nil in Hu.
    + intros ->. unfold possible_groups in Hg.
      by repeat (apply elem_of_cons in Hg as [Hg | Hg]; [discriminate |]);
        apply elem_of_nil in Hg.
Qed.

(** Scenario E: a host with none of the candidate accounts. *)
Example no_named_account :
  _get_user_group (mkAccounts [mkPasswd "root" 0] [mkGroup "root" 0; mkGroup "wheel" 10])
  = ("65534", "65534").
Proof. reflexivity. Qed.

Example debian_accounts :
  _get_user_group
    (mkAccounts [mkPasswd "root" 0; mkPasswd "daemon" 1; mkPasswd "nobody" 65534]
                [mkGroup "root" 0; mkGroup "daemon" 1; mkGroup "nogroup" 65534])
  = ("nobody", "nogroup").
Proof. reflexivity. Qed.

Lemma identity_all_or_nothing_witness :
  _get_user lonely_nobody = Some "nobody" /\
  _get_user_group lonely_nobody = ("65534", "65534").
Proof.
  split; [reflexivity |].
  apply (proj1 (identity_all_or_nothing lonely_nobody)). right. reflexivity.
Defined.

End UserGroupSpec.

(** ** Request validation *)
Module SchemaSpec.
Import Schema.

(** C9, as the code has it.  A body is accepted exactly when it carries
    a code string; the timeout is the integer given, of either sign and
    of any size, and 5 when omitted; the code is taken at any length. *)
Theorem request_validation (c : string) (t : Z) :
  validate (mkBody (Some c) (Some t)) = Some (mkCodeRequest c t) /\
  validate (mkBody (Some c) None) = Some (mkCodeRequest c 5) /\
  validate (mkBody None (Some t)) = None /\
  validate (mkBody None None) = None.
Proof. repeat split. Qed.

(** C9 as stated fails: a request with timeout -3 is accepted. *)
Lemma nonpositive_timeout_accepted :
  exists r, validate (mkBody (Some "pass") (Some (-3))) = Some r /\
            ~ (0 < timeout r).
Proof.
  exists (mkCodeRequest "pass" (-3)). split; [reflexivity |]. cbn. lia.
Qed.

End SchemaSpec.

(** ** The orchestrator *)
Module ApiSpec.
Import Schema Api.

Lemma str_roundtrip (n : Z) : int_of_str (str n) = Some n.
Proof.
  unfold int_of_str, str. rewrite NilZero.isi.
  - by rewrite DecimalZ.of_to.
  - destruct n; cbn; try discriminate.
    intros [= H]. by apply DecimalPos.Unsigned.to_uint_nonnil in H.
  - destruct n; cbn; try discriminate.
    intros [= H]. by apply DecimalPos.Unsigned.to_uint_nonnil in H.
Qed.

(** *** Projections of the world through its updates *)

Lemma dirs_add_descendants (pid : Z) (ds : list Z) (w : world) :
  dirs (add_descendants pid ds w) = dirs w.
Proof. induction ds as [| d ds IH]; [reflexivity | exact IH]. Qed.

Lemma log_add_descendants (pid : Z) (ds : list Z) (w : world) :
  log (add_descendants pid ds w) = log w.
Proof. induction ds as [| d ds IH]; [reflexivity | exact IH]. Qed.

Lemma procs_add_descendants (pid : Z) (ds : list Z) (w : world) (q : Z) :
  procs (add_descendants pid ds w) !! q =
    if decide (q ∈ ds) then Some (mkProc [] pid true) else procs w !! q.
Proof.
  induction ds as [| d ds IH].
  - by rewrite decide_False by apply not_elem_of_nil.
  - change (add_descendants pid (d :: ds) w)
      with (put_proc d (mkProc [] pid true) (add_descendants pid ds w)).
    unfold put_proc at 1. cbn [procs].
    destruct (decide (d = q)) as [-> | Hne].
    + rewrite lookup_insert_eq. by rewrite decide_True by apply list_elem_of_here.
    + rewrite lookup_insert_ne by done. rewrite IH.
      destruct (decide (q ∈ ds)) as [Hin | Hnin].
      * by rewrite decide_True by (by apply list_elem_of_further).
      * rewrite decide_False; [done |].
        intros [-> | ?]%elem_of_cons; contradiction.
Qed.

Lemma remove_added (X : gset string) (d : string) :
  d ∉ X -> ({[d]} ∪ X) ∖ {[d]} = X.
Proof.
  intros Hn. apply set_eq. intros x.
  rewrite elem_of_difference, elem_of_union, elem_of_singleton.
  split; [tauto |]. intros Hx. split; [tauto |]. intros ->. contradiction.
Qed.

Section Runs.
Variables user group : string.
Variables (e : env) (request : CodeRequest) (w : world).

Local Abbreviation file_path := (file_path e).
Local Abbreviation cmd := (command user group e request).
Local Abbreviation started := (started user group e request w).
Local Abbreviation outcome := (outcome user group e request w).

Ltac run_handler :=
  unfold execute_code, with_TemporaryDirectory, run_in, open_write, Popen,
    try_except_TimeoutExpired, communicate, kill, bind, modify, ret, raise.

Lemma execute_code_no_dir :
  mkdtemp e = None \/ (exists d, mkdtemp e = Some d /\ d ∈ dirs w) ->
  exists ex, execute_code user group e request w
             = (HTTPException 500 ("Internal server error: " +:+ exn_str ex), w).
Proof.
  intros [Hd | (d & Hd & Hin)]; run_handler; rewrite Hd.
  - by eexists.
  - rewrite decide_True by done. by eexists.
Qed.

Lemma execute_code_write_failed (d : string) :
  mkdtemp e = Some d -> d ∉ dirs w -> write_ok e = false ->
  execute_code user group e request w
  = (HTTPException 500 ("Internal server error: " +:+ file_path d),
     rmtree d (add_dir d w)).
Proof.
  intros Hd Hn Hw. run_handler. rewrite Hd, Hw.
  by rewrite decide_False by done.
Qed.

Lemma execute_code_spawn_failed (d : string) :
  mkdtemp e = Some d -> d ∉ dirs w -> write_ok e = true -> spawn e = None ->
  execute_code user group e request w
  = (HTTPException 500 "Internal server error: nsjail",
     rmtree d (put_file (file_path d) (code request) (add_dir d w))).
Proof.
  intros Hd Hn Hw Hs. run_handler. rewrite Hd, Hw, Hs.
  by rewrite decide_False by done.
Qed.

Lemma execute_code_exited (d : string) (pid : Z) (out err : string) (rc : Z) :
  mkdtemp e = Some d -> d ∉ dirs w -> write_ok e = true ->
  spawn e = Some pid -> observe e = Exited out err rc ->
  execute_code user group e request w
  = (Response (mkCodeResponse out err rc),
     rmtree d (mark_exited pid (started d pid))).
Proof.
  intros Hd Hn Hw Hs Ho. run_handler. rewrite Hd, Hw, Hs, Ho.
  by rewrite decide_False by done.
Qed.

Lemma execute_code_expired (d : string) (pid : Z) (ds : list Z) :
  mkdtemp e = Some d -> d ∉ dirs w -> write_ok e = true ->
  spawn e = Some pid -> observe e = Expired ds ->
  execute_code user group e request w
  = (Response (mkCodeResponse "" "Execution timed out" (-1)),
     rmtree d (record (EvSignal pid SIGKILL)
                 (add_descendants pid ds (started d pid)))).
Proof.
  intros Hd Hn Hw Hs Ho. run_handler. rewrite Hd, Hw, Hs, Ho.
  by rewrite decide_False by done.
Qed.

Lemma execute_code_failed (d : string) (pid : Z) (ex : exn) :
  mkdtemp e = Some d -> d ∉ dirs w -> write_ok e = true ->
  spawn e = Some pid -> observe e = Failed ex ->
  execute_code user group e request w
  = (match ex with
     | TimeoutExpired => Response (mkCodeResponse "" "Execution timed out" (-1))
     | _ => HTTPException 500 ("Internal server error: " +:+ exn_str ex)
     end,
     rmtree d (match ex with
               | TimeoutExpired =>
                   record (EvSignal pid SIGKILL) (started d pid)
               | _ => started d pid
               end)).
Proof.
  intros Hd Hn Hw Hs Ho. run_handler. rewrite Hd, Hw, Hs, Ho.
  rewrite decide_False by done. by destruct ex.
Qed.

Lemma execute_code_outcome : outcome (execute_code user group e request w).
Proof.
  destruct (mkdtemp e) as [d |] eqn:Hd.
  2: { destruct execute_code_no_dir as [ex ->]; [by left | constructor]. }
  destruct (decide (d ∈ dirs w)) as [Hin | Hn].
  { destruct execute_code_no_dir as [ex ->]; [right; eauto | constructor]. }
  destruct (write_ok e) eqn:Hw.
  2: { rewrite (execute_code_write_failed d) by done. by constructor. }
  destruct (spawn e) as [pid |] eqn:Hs.
  2: { rewrite (execute_code_spawn_failed d) by done. by constructor. }
  destruct (observe e) as [out err rc | ds | ex] eqn:Ho.
  - rewrite (execute_code_exited d pid out err rc) by done. by constructor.
  - rewrite (execute_code_expired d pid ds) by done. constructor; auto.
  - rewrite (execute_code_failed d pid ex) by done.
    destruct ex; try (constructor; done).
    apply TimedOut with (ds := []); auto.
Qed.

Lemma new_events_app (w' : world) (l : list event) :
  log w' = log w ++ l -> new_events w w' = l.
Proof. intros H. unfold new_events. rewrite H. apply drop_app_length. Qed.

(** What a request adds to the log, by outcome. *)
Lemma outcome_events (r : reply * world) :
  outcome r ->
  new_events w (snd r) = [] \/
  exists d pid, mkdtemp e = Some d /\ (d ∉ dirs w) /\ spawn e = Some pid /\
    (new_events w (snd r)
       = [EvPopen (cmd d) pid; EvCommunicate pid (timeout request + 1)] \/
     new_events w (snd r)
       = [EvPopen (cmd d) pid; EvCommunicate pid (timeout request + 1);
          EvSignal pid SIGKILL]).
Proof.
  intros [ex | d Hd Hn | d Hd Hn | d pid out err rc Hd Hn Hs Ho
          | d pid ds Hd Hn Hs Ho | d pid ex Hd Hn Hs Ho Hex]; cbn [snd].
  - left. apply new_events_app. by rewrite app_nil_r.
  - left. apply new_events_app. cbn. by rewrite app_nil_r.
  - left. apply new_events_app. cbn. by rewrite app_nil_r.
  - right. exists d, pid. repeat (split; [done |]). left.
    apply new_events_app. cbn. by rewrite <- app_assoc.
  - right. exists d, pid. repeat (split; [done |]). right.
    apply new_events_app. cbn. rewrite log_add_descendants. cbn.
    by rewrite <- !app_assoc.
  - right. exists d, pid. repeat (split; [done |]). left.
    apply new_events_app. cbn. by rewrite <- app_assoc.
Qed.

Lemma outcome_dirs (r : reply * world) : outcome r -> dirs (snd r) = dirs w.
Proof.
  intros [ex | d Hd Hn | d Hd Hn | d pid out err rc Hd Hn Hs Ho
          | d pid ds Hd Hn Hs Ho | d pid ex Hd Hn Hs Ho Hex]; cbn [snd];
    [reflexivity | ..]; cbn; rewrite ?dirs_add_descendants; cbn;
    by apply remove_added.
Qed.

Lemma execute_code_os_removable :
  execute_code_os user group e true request w
  = execute_code user group e request w.
Proof.
  unfold execute_code_os, execute_code, with_TemporaryDirectory_os,
    with_TemporaryDirectory.
  destruct (mkdtemp e) as [d |]; [| reflexivity].
  destruct (decide (d ∈ dirs w)); [reflexivity |].
  by destruct (run_in user group e request d (add_dir d w)) as [[ex | r] w'].
Qed.

Lemma execute_code_os_refused (d : string) :
  mkdtemp e = Some d -> d ∉ dirs w ->
  execute_code_os user group e false request w
  = (HTTPException 500 ("Internal server error: " +:+ d),
     snd (run_in user group e request d (add_dir d w))).
Proof.
  intros Hd Hn. unfold execute_code_os, with_TemporaryDirectory_os.
  rewrite Hd. rewrite decide_False by done.
  by destruct (run_in user group e request d (add_dir d w)) as [[ex | r] w'].
Qed.

Lemma run_in_dirs (d : string) (w0 : world) :
  dirs (snd (run_in user group e request d w0)) = dirs w0.
Proof.
  unfold run_in, open_write, Popen, try_except_TimeoutExpired, communicate, kill,
    bind, modify, ret, raise.
  destruct (write_ok e); [| reflexivity].
  destruct (spawn e) as [pid |]; [| reflexivity].
  destruct (observe e) as [out err rc | ds | ex]; cbn;
    rewrite ?dirs_add_descendants; try reflexivity.
  by destruct ex.
Qed.

(** C7, as the code has it.  The removal of the temporary directory is
    reached on every way out of the [with] block: when the operating
    system carries it out, the directories after the request are those
    before it, whatever the request did (normal exit, timeout, failing
    wait, launch failure); when the removal is refused, the directory
    is still there and the request is answered with a 500. *)
Theorem temp_dir_fate (rmtree_ok : bool) :
  (rmtree_ok = true ->
   dirs (snd (execute_code_os user group e rmtree_ok request w)) = dirs w) /\
  (forall d, mkdtemp e = Some d -> d ∉ dirs w ->
     (rmtree_ok = true ->
      d ∉ dirs (snd (execute_code_os user group e rmtree_ok request w))) /\
     (rmtree_ok = false ->
      d ∈ dirs (snd (execute_code_os user group e rmtree_ok request w)) /\
      http_status (fst (execute_code_os user group e rmtree_ok request w)) = 500)).
Proof.
  assert (Hgone : dirs (snd (execute_code_os user group e true request w)) = dirs w).
  { rewrite execute_code_os_removable. apply (outcome_dirs _ execute_code_outcome). }
  split; [by intros -> |].
  intros d Hd Hn. split.
  - intros ->. by rewrite Hgone.
  - intros ->. rewrite (execute_code_os_refused d Hd Hn). cbn [fst snd].
    split; [| reflexivity].
    rewrite run_in_dirs. cbn. apply elem_of_union_l. by apply elem_of_singleton.
Qed.


(** C5, as the code has it.  When the deadline expires the handler
    sends exactly one signal, SIGKILL to the child it started; it
    signals neither a process group nor the processes below the child,
    which are left as they were. *)
Theorem timeout_kills_child_only (d : string) (pid : Z) (ds : list Z) :
  mkdtemp e = Some d -> d ∉ dirs w -> write_ok e = true ->
  spawn e = Some pid -> observe e = Expired ds ->
  new_events w (snd (execute_code user group e request w))
    = [EvPopen (cmd d) pid; EvCommunicate pid (timeout request + 1);
       EvSignal pid SIGKILL] /\
  (forall q signo,
     EvSignal q signo ∈ new_events w (snd (execute_code user group e request w)) ->
     q = pid /\ signo = SIGKILL) /\
  (forall q, q ∈ ds -> q <> pid ->
     procs (snd (execute_code user group e request w)) !! q
       = Some (mkProc [] pid true)).
Proof.
  intros Hd Hn Hw Hs Ho.
  rewrite (execute_code_expired d pid ds) by done.
  cbn [snd].
  assert (Hev : new_events w
                  (rmtree d (record (EvSignal pid SIGKILL)
                               (add_descendants pid ds (started d pid))))
                = [EvPopen (cmd d) pid; EvCommunicate pid (timeout request + 1);
                   EvSignal pid SIGKILL]).
  { apply new_events_app. cbn. rewrite log_add_descendants. cbn.
    by rewrite <- !app_assoc. }
  split; [exact Hev |]. split.
  - intros q signo Hin. rewrite Hev in Hin.
    apply elem_of_cons in Hin as [Hin | Hin]; [discriminate |].
    apply elem_of_cons in Hin as [Hin | Hin]; [discriminate |].
    apply list_elem_of_singleton in Hin. by injection Hin as -> ->.
  - intros q Hq Hne. cbn.
    rewrite procs_add_descendants. by rewrite decide_True.
Qed.

(** The command line of every child the request starts. *)
Lemma popen_command (c : list string) (pid : Z) :
  EvPopen c pid ∈ new_events w (snd (execute_code user group e request w)) ->
  exists d, mkdtemp e = Some d /\ (d ∉ dirs w) /\ spawn e = Some pid /\ c = cmd d.
Proof.
  intros Hin.
  destruct (outcome_events _ execute_code_outcome)
    as [H | (d & pid' & Hd & Hn & Hs & [H | H])]; rewrite H in Hin.
  - by apply elem_of_nil in Hin.
  - apply elem_of_cons in Hin as [[= -> ->] | Hin]; [by exists d |].
    apply list_elem_of_singleton in Hin. discriminate.
  - apply elem_of_cons in Hin as [[= -> ->] | Hin]; [by exists d |].
    apply elem_of_cons in Hin as [Hin | Hin]; [discriminate |].
    apply list_elem_of_singleton in Hin. discriminate.
Qed.

(** C6.  Every child is started with the CPU ceiling of the jail set
    to the decimal form of the request's timeout, every wait on it
    has the deadline [timeout + 1], which is strictly greater; and
    when the launch goes through, the request does start the child
    and does wait for it. *)
Theorem deadline_exceeds_cpu_ceiling :
  (forall c pid,
     EvPopen c pid ∈ new_events w (snd (execute_code user group e request w)) ->
     exists v, Jail.value_of "--rlimit_cpu" (Jail.options c) = Some v /\
               int_of_str v = Some (timeout request)) /\
  (forall pid deadline,
     EvCommunicate pid deadline
       ∈ new_events w (snd (execute_code user group e request w)) ->
     deadline = timeout request + 1 /\ timeout request < deadline) /\
  (forall d pid,
     mkdtemp e = Some d -> d ∉ dirs w -> write_ok e = true -> spawn e = Some pid ->
     exists tl, new_events w (snd (execute_code user group e request w))
                = EvPopen (cmd d) pid
                  :: EvCommunicate pid (timeout request + 1) :: tl).
Proof.
  split; [| split].
  - intros c pid Hin. apply popen_command in Hin as (d & _ & _ & _ & ->).
    exists (str (timeout request)). split; [reflexivity | apply str_roundtrip].
  - intros pid deadline Hin.
    destruct (outcome_events _ execute_code_outcome)
      as [H | (d & pid' & Hd & Hn & Hs & [H | H])]; rewrite H in Hin.
    + by apply elem_of_nil in Hin.
    + apply elem_of_cons in Hin as [Hin | Hin]; [discriminate |].
      apply list_elem_of_singleton in Hin. injection Hin as -> ->. lia.
    + apply elem_of_cons in Hin as [Hin | Hin]; [discriminate |].
      apply elem_of_cons in Hin as [Hin | Hin]; [injection Hin as -> ->; lia |].
      apply list_elem_of_singleton in Hin. discriminate.
  - intros d pid Hd Hn Hw Hs.
    destruct (observe e) as [out err rc | ds | ex] eqn:Ho.
    + rewrite (execute_code_exited d pid out err rc) by done.
      exists []. apply new_events_app. cbn. by rewrite <- app_assoc.
    + rewrite (execute_code_expired d pid ds) by done.
      eexists. apply new_events_app. cbn. rewrite log_add_descendants. cbn.
      by rewrite <- !app_assoc.
    + rewrite (execute_code_failed d pid ex) by done.
      destruct ex; eexists; apply new_events_app; cbn; by rewrite <- ?app_assoc.
Qed.

End Runs.

(** *** The three environments, run from the empty world *)

Lemma fresh_in_empty_world (d : string) : d ∉ dirs empty_world.
Proof. apply not_elem_of_empty. Qed.

Lemma hello_events (user group : string) :
  new_events empty_world
    (snd (execute_code user group hello_env hello_request empty_world))
  = [EvPopen (command user group hello_env hello_request "/tmp/tmpa1") 4242;
     EvCommunicate 4242 6].
Proof.
  erewrite execute_code_exited;
    [reflexivity | reflexivity | apply fresh_in_empty_world | reflexivity..].
Qed.

(** Scenario A: the hello request. *)
Example hello_reply (user group : string) :
  fst (execute_code user group hello_env hello_request empty_world)
  = Response (mkCodeResponse ("Hello, World!" +:+ String (Ascii.ascii_of_nat 10) "")
                "" 0).
Proof.
  erewrite execute_code_exited;
    [reflexivity | reflexivity | apply fresh_in_empty_world | reflexivity..].
Qed.

Lemma runaway_expired (user group : string) :
  execute_code user group runaway_env loop_request empty_world
  = (Response (mkCodeResponse "" "Execution timed out" (-1)),
     rmtree "/tmp/tmpa1"
       (record (EvSignal 4242 SIGKILL)
          (add_descendants 4242 [4243]
             (started user group runaway_env loop_request empty_world
                "/tmp/tmpa1" 4242)))).
Proof.
  apply execute_code_expired;
    [reflexivity | apply fresh_in_empty_world | reflexivity..].
Qed.

(** C8.  The command line of every child started for a request gives
    nsjail: a time limit and a CPU limit (both the request's timeout),
    an address-space limit, the temporary directory as working
    directory, the resolved user and group, no loopback interface, no
    /proc, run-once mode, and a root given by [--chroot] without
    [--rw], hence read-only. *)
Theorem isolation_invocation (db : UserGroup.accounts) (e : env)
    (request : CodeRequest) (w : world) (c : list string) (pid : Z) :
  EvPopen c pid
    ∈ new_events w (snd (execute_code (UserGroup.UNPRIVILEGED_USER db)
                           (UserGroup.UNPRIVILEGED_GROUP db) e request w)) ->
  exists d, mkdtemp e = Some d /\
    Jail.value_of "--time_limit" (Jail.options c) = Some (str (timeout request)) /\
    Jail.value_of "--rlimit_cpu" (Jail.options c) = Some (str (timeout request)) /\
    Jail.value_of "--rlimit_as" (Jail.options c) = Some "100" /\
    Jail.value_of "--cwd" (Jail.options c) = Some d /\
    Jail.value_of "--user" (Jail.options c) = Some (UserGroup.UNPRIVILEGED_USER db) /\
    Jail.value_of "--group" (Jail.options c) = Some (UserGroup.UNPRIVILEGED_GROUP db) /\
    Jail.has_switch "--iface_no_lo" (Jail.options c) = true /\
    Jail.has_switch "--disable_proc" (Jail.options c) = true /\
    Jail.value_of "--mode" (Jail.options c) = Some "o" /\
    Jail.value_of "--chroot" (Jail.options c) = Some "/" /\
    Jail.has_switch "--rw" (Jail.options c) = false.
Proof.
  intros Hin. apply popen_command in Hin as (d & Hd & _ & _ & ->).
  exists d. split; [exact Hd |]. repeat split.
Qed.

Lemma isolation_invocation_witness :
  exists d, mkdtemp hello_env = Some d /\
    Jail.value_of "--cwd"
      (Jail.options
         (command (UserGroup.UNPRIVILEGED_USER UserGroup.lonely_nobody)
            (UserGroup.UNPRIVILEGED_GROUP UserGroup.lonely_nobody)
            hello_env hello_request "/tmp/tmpa1")) = Some d.
Proof.
  destruct (isolation_invocation UserGroup.lonely_nobody hello_env hello_request
              empty_world
              (command (UserGroup.UNPRIVILEGED_USER UserGroup.lonely_nobody)
                 (UserGroup.UNPRIVILEGED_GROUP UserGroup.lonely_nobody)
                 hello_env hello_request "/tmp/tmpa1")
              4242) as (d & Hd & _ & _ & _ & Hcwd & _).
  - rewrite hello_events. apply list_elem_of_here.
  - exists d. split; [exact Hd | exact Hcwd].
Defined.

(** C3, as the code has it.  The command started inside the jail is
    the interpreter applied to the source file of the request itself;
    sandbox_runner.py is not part of it.  Run that way the process
    does nothing but execute the guest code: no ceiling is set and no
    filter is loaded in-process. *)
Theorem delegated_run_unrestricted (user group : string) (e : env)
    (request : CodeRequest) (w : world) (c : list string) (pid : Z)
    (runner_path : string) (h : SandboxRunner.host) :
  EvPopen c pid ∈ new_events w (snd (execute_code user group e request w)) ->
  exists d, mkdtemp e = Some d /\
    Jail.guest_argv c = ["/usr/bin/python3"; file_path e d] /\
    (file_path e d <> runner_path ->
     SandboxRunner.read_file h (file_path e d) = Some (code request) ->
     forall ev, ev ∈ fst (Jail.jailed_run runner_path h c) ->
                ev = SandboxRunner.EvExec (code request)).
Proof.
  intros Hin. apply popen_command in Hin as (d & Hd & _ & _ & ->).
  exists d. split; [exact Hd |]. split; [reflexivity |].
  intros Hne Hfile ev.
  unfold Jail.jailed_run.
  change (Jail.guest_argv (command user group e request d))
    with ["/usr/bin/python3"; file_path e d].
  unfold Jail.python3.
  destruct (String.eqb_spec (file_path e d) runner_path) as [Heq | _];
    [contradiction |].
  rewrite Hfile. unfold SandboxRunner.exec_compile.
  destruct (SandboxRunner.compile_ok h (code request)); cbn.
  - destruct (SandboxRunner.guest h (code request)); cbn;
      intros Hev; by apply list_elem_of_singleton in Hev.
  - intros Hev. by apply elem_of_nil in Hev.
Qed.

Lemma delegated_run_unrestricted_witness :
  exists d, mkdtemp hello_env = Some d /\
    forall ev, ev ∈ fst (Jail.jailed_run Jail.installed_runner Jail.hello_host
                           Jail.hello_command) ->
               ev = SandboxRunner.EvExec (code hello_request).
Proof.
  destruct (delegated_run_unrestricted "nobody" "nogroup" hello_env hello_request
              empty_world Jail.hello_command 4242 Jail.installed_runner
              Jail.hello_host) as (d & Hd & _ & Hrun).
  - rewrite hello_events. apply list_elem_of_here.
  - exists d. split; [exact Hd |]. injection Hd as <-.
    apply Hrun; [discriminate | reflexivity].
Defined.

(** C3 as stated fails: for the hello request the jailed process
    executes the guest code with none of the setup steps before it. *)
Lemma delegated_run_skips_setup :
  EvPopen Jail.hello_command 4242
    ∈ new_events empty_world
        (snd (execute_code "nobody" "nogroup" hello_env hello_request empty_world)) /\
  fst (Jail.jailed_run Jail.installed_runner Jail.hello_host Jail.hello_command)
    = [SandboxRunner.EvExec (code hello_request)] /\
  ~ (exists tl,
       fst (Jail.jailed_run Jail.installed_runner Jail.hello_host Jail.hello_command)
       = SandboxRunner.setup_events Jail.hello_host ++ tl).
Proof.
  split; [| split].
  - rewrite hello_events. apply list_elem_of_here.
  - reflexivity.
  - intros [tl H]. discriminate H.
Qed.

Lemma temp_dir_fate_witness :
  "/tmp/tmpa1" ∉ dirs (snd (execute_code_os "nobody" "nogroup" no_jail_env true
                              hello_request empty_world)).
Proof.
  apply (proj1 (proj2 (temp_dir_fate "nobody" "nogroup" no_jail_env hello_request
                         empty_world true)
                  "/tmp/tmpa1" eq_refl (fresh_in_empty_world _))).
  reflexivity.
Defined.

(** C7 as stated fails: when the removal of the directory is refused,
    the directory created for the hello request is still there after
    the request, which otherwise went through. *)
Lemma temp_dir_left_behind :
  ("/tmp/tmpa1" ∉ dirs empty_world) /\
  observe hello_env = Exited ("Hello, World!" +:+ String (Ascii.ascii_of_nat 10) "") "" 0 /\
  "/tmp/tmpa1" ∈ dirs (snd (execute_code_os "nobody" "nogroup" hello_env false
                              hello_request empty_world)).
Proof.
  split; [apply fresh_in_empty_world |]. split; [reflexivity |].
  rewrite (execute_code_os_refused "nobody" "nogroup" hello_env hello_request
             empty_world "/tmp/tmpa1" eq_refl (fresh_in_empty_world _)).
  cbn [snd]. rewrite run_in_dirs. cbn.
  apply elem_of_union_l. by apply elem_of_singleton.
Qed.



Lemma timeout_kills_child_only_witness :
  procs (snd (execute_code "nobody" "nogroup" runaway_env loop_request
                empty_world)) !! 4243
  = Some (mkProc [] 4242 true).
Proof.
  apply (proj2 (proj2 (timeout_kills_child_only "nobody" "nogroup" runaway_env
                         loop_request empty_world "/tmp/tmpa1" 4242 [4243]
                         eq_refl (fresh_in_empty_world _) eq_refl eq_refl eq_refl)));
    [apply list_elem_of_here | discriminate].
Defined.

(** C5 as stated fails: after a timed-out request, a process the child
    had started is still alive, and nothing was sent to it. *)
Lemma descendant_survives_timeout :
  observe runaway_env = Expired [4243] /\
  (exists p, procs (snd (execute_code "nobody" "nogroup" runaway_env loop_request
                           empty_world)) !! 4243 = Some p /\
             proc_parent p = 4242 /\ proc_alive p = true) /\
  forall signo,
    EvSignal 4243 signo
      ∉ log (snd (execute_code "nobody" "nogroup" runaway_env loop_request
                    empty_world)).
Proof.
  split; [reflexivity |]. rewrite runaway_expired. cbn [snd]. split.
  - exists (mkProc [] 4242 true). split; [| done].
    cbn. by rewrite lookup_insert_eq.
  - intros signo Hin. cbn in Hin.
    repeat (apply elem_of_cons in Hin as [Hin | Hin]; [discriminate |]).
    by apply elem_of_nil in Hin.
Qed.

Lemma deadline_exceeds_cpu_ceiling_witness :
  exists v, Jail.value_of "--rlimit_cpu" (Jail.options Jail.hello_command) = Some v /\
            int_of_str v = Some 5.
Proof.
  apply (proj1 (deadline_exceeds_cpu_ceiling "nobody" "nogroup" hello_env
                  hello_request empty_world) Jail.hello_command 4242).
  rewrite hello_events. apply list_elem_of_here.
Defined.

End ApiSpec.


(** * Further properties of the code *)

(** ** sandbox_runner.py: how a run ends *)
Module SandboxRunnerExtra.
Import SandboxRunner.

Lemma setup_ok_true (h : host) :
  setup_ok h = true ->
  setrlimit_ok h RLIMIT_CPU = true /\ setrlimit_ok h RLIMIT_AS = true /\
  setrlimit_ok h RLIMIT_FSIZE = true /\ filter_new_ok h = true /\
  add_rule_ok h 0%nat = true /\ add_rule_ok h 1%nat = true /\
  add_rule_ok h 2%nat = true /\ add_rule_ok h 3%nat = true /\ load_ok h = true.
Proof.
  unfold setup_ok. intros H.
  repeat (apply andb_prop in H as [H ?]). tauto.
Qed.

(** Once the setup went through, the rest of the script decides the run. *)
Lemma run_after_setup (h : host) :
  setup_ok h = true ->
  run h =
    match nth_error (argv h) 1 with
    | None => (setup_events h, 1)
    | Some p =>
        match read_file h p with
        | None => (setup_events h, 1)
        | Some src =>
            if compile_ok h src
            then (setup_events h ++ [EvRead p; EvExec src],
                  match guest h src with Some _ => 1 | None => 0 end)
            else (setup_events h ++ [EvRead p], 1)
        end
    end.
Proof.
  intros Hok.
  destruct (setup_ok_true h Hok) as (E1 & E2 & E3 & E4 & E5 & E6 & E7 & E8 & E9).
  unfold run, main, bind, setrlimit, SyscallFilter_new, flt_add_rule, flt_load,
    argv_1, open_read, exec_compile.
  rewrite E1, E2, E3, E4, E5, E6, E7, E8, E9. cbn.
  destruct (argv h) as [| a0 [| code_file rest]]; cbn; try reflexivity.
  destruct (read_file h code_file) as [code_source |]; cbn; [| reflexivity].
  destruct (compile_ok h code_source); cbn; [| reflexivity].
  destruct (guest h code_source); reflexivity.
Qed.

Import FilteredRunner.

(** The filter of the script refuses [openat], whatever its registers. *)
Lemma openat_refused (h : host) (regs : list Z) :
  filter_action (flt h) (mkSyscall "openat" regs) = ERRNO EPERM.
Proof. rewrite SandboxRunnerSpec.filter_action_flt. reflexivity. Qed.

(** Up to the load the two readings of the script are the same. *)
Lemma run_filtered_refused (h : host) (regs : list Z) :
  setup_ok h = false -> run_filtered h regs = run h.
Proof.
  intros Hko. unfold run_filtered, run, main_filtered, main, bind, setrlimit,
    SyscallFilter_new, flt_add_rule, flt_load.
  destruct (setrlimit_ok h RLIMIT_CPU) eqn:E1; [| reflexivity].
  destruct (setrlimit_ok h RLIMIT_AS) eqn:E2; [| reflexivity].
  destruct (setrlimit_ok h RLIMIT_FSIZE) eqn:E3; [| reflexivity].
  destruct (filter_new_ok h) eqn:E4; [| reflexivity].
  destruct (add_rule_ok h 0%nat) eqn:E5; [| reflexivity].
  destruct (add_rule_ok h 1%nat) eqn:E6; [| reflexivity].
  destruct (add_rule_ok h 2%nat) eqn:E7; [| reflexivity].
  destruct (add_rule_ok h 3%nat) eqn:E8; [| reflexivity].
  destruct (load_ok h) eqn:E9; [| reflexivity].
  unfold setup_ok in Hko. rewrite E1, E2, E3, E4, E5, E6, E7, E8, E9 in Hko.
  discriminate.
Qed.

Lemma run_filtered_after_setup (h : host) (regs : list Z) :
  setup_ok h = true -> run_filtered h regs = (setup_events h, 1).
Proof.
  intros Hok.
  destruct (setup_ok_true h Hok) as (E1 & E2 & E3 & E4 & E5 & E6 & E7 & E8 & E9).
  unfold run_filtered, main_filtered, bind, setrlimit, SyscallFilter_new,
    flt_add_rule, flt_load, argv_1, open_read_filtered.
  rewrite E1, E2, E3, E4, E5, E6, E7, E8, E9. cbn [emit ret fst snd].
  (* without a code file the script stops at [sys.argv[1]]; with one,
     at the [openat] that the filter just loaded refuses *)
  destruct (argv h) as [| a0 [| code_file rest]]; reflexivity.
Qed.

(** X1.  Under the filter it has loaded, the script never executes
    guest code: the filter answers EPERM to the [openat] by which the
    script itself opens the code file.  Every run ends with status 1,
    reads no file and executes nothing, and on a host that accepts the
    setup it ends right after the load. *)
Theorem filtered_run_never_executes (h : host) (regs : list Z) :
  filter_action (flt h) (mkSyscall "openat" regs) = ERRNO EPERM /\
  snd (run_filtered h regs) = 1 /\
  (forall src, EvExec src ∉ fst (run_filtered h regs)) /\
  (forall p, EvRead p ∉ fst (run_filtered h regs)) /\
  (setup_ok h = true -> fst (run_filtered h regs) = setup_events h).
Proof.
  assert (Hquiet : forall n ev, ev ∈ take n (setup_events h) ->
                     match ev with EvExec _ | EvRead _ => False | _ => True end).
  { intros n ev Hin. apply (subseteq_take n) in Hin. unfold setup_events in Hin.
    repeat (apply elem_of_cons in Hin as [-> | Hin]; [exact I |]).
    by apply elem_of_nil in Hin. }
  split; [apply openat_refused |].
  destruct (setup_ok h) eqn:Hok.
  - rewrite (run_filtered_after_setup h regs Hok). cbn [fst snd].
    split; [reflexivity |]. split; [| split; [| done]].
    + intros src Hin.
      apply (Hquiet (length (setup_events h)) (EvExec src)). by rewrite firstn_all.
    + intros p Hin.
      apply (Hquiet (length (setup_events h)) (EvRead p)). by rewrite firstn_all.
  - rewrite (run_filtered_refused h regs Hok).
    destruct (SandboxRunnerSpec.main_trace_shape h)
      as [[Hok' _] | (_ & Hst & n & Ht)]; [congruence |].
    rewrite Ht, Hst. split; [reflexivity |]. split; [| split; [| discriminate]].
    + intros src Hin. apply (Hquiet n (EvExec src) Hin).
    + intros p Hin. apply (Hquiet n (EvRead p) Hin).
Qed.

(** The willing host, its code file opened with [openat(AT_FDCWD, ...,
    O_RDONLY|O_CLOEXEC)]. *)
Lemma filtered_run_never_executes_witness :
  fst (run_filtered willing_host [-100; 140737; 524288; 0])
  = setup_events willing_host.
Proof.
  apply (proj2 (proj2 (proj2 (proj2 (filtered_run_never_executes willing_host
                                       [-100; 140737; 524288; 0]))))).
  reflexivity.
Defined.

(** X2.  The code file is looked for only after the filter is loaded:
    without a second argument, or with one that cannot be read, the run
    ends with status 1 and no guest code, and on a host that accepts
    the setup every setup step has nevertheless been taken. *)
Theorem no_code_file_no_guest (h : host) :
  nth_error (argv h) 1 = None \/
  (exists p, nth_error (argv h) 1 = Some p /\ read_file h p = None) ->
  snd (run h) = 1 /\
  (forall src, EvExec src ∉ fst (run h)) /\
  (setup_ok h = true -> fst (run h) = setup_events h).
Proof.
  intros Hbad.
  destruct (setup_ok h) eqn:Hok.
  - assert (Hrun : run h = (setup_events h, 1)).
    { rewrite (run_after_setup h Hok).
      destruct Hbad as [-> | (p & -> & ->)]; reflexivity. }
    rewrite Hrun. cbn [fst snd]. split; [reflexivity |]. split; [| done].
    intros src Hin.
    apply (SandboxRunnerSpec.no_exec_in_setup h (length (setup_events h)) src).
    by rewrite firstn_all.
  - destruct (SandboxRunnerSpec.main_trace_shape h)
      as [[Hok' _] | (_ & Hst & n & Ht)]; [congruence |].
    split; [exact Hst |]. split; [| discriminate].
    intros src. rewrite Ht. apply SandboxRunnerSpec.no_exec_in_setup.
Qed.

Lemma no_code_file_no_guest_witness :
  fst (run (Jail.with_argv willing_host ["sandbox_runner.py"]))
  = setup_events (Jail.with_argv willing_host ["sandbox_runner.py"]).
Proof.
  apply (no_code_file_no_guest (Jail.with_argv willing_host ["sandbox_runner.py"]));
    [left; reflexivity | reflexivity].
Defined.

(** X3.  Every ceiling that a run applies has its soft limit equal to
    its hard limit, so it cannot be raised again, and it is one of: CPU
    2 seconds, address space 100 MiB, file size 5 MiB. *)
Theorem ceilings_are_hard (h : host) (r : rlimit) (soft hard : Z) :
  EvSetrlimit r soft hard ∈ fst (run h) ->
  soft = hard /\
  ((r = RLIMIT_CPU /\ soft = 2) \/
   (r = RLIMIT_AS /\ soft = 104857600) \/
   (r = RLIMIT_FSIZE /\ soft = 5242880)).
Proof.
  intros Hin.
  assert (Hsetup : EvSetrlimit r soft hard ∈ setup_events h).
  { destruct (SandboxRunnerSpec.main_trace_shape h)
      as [[_ (tl & Ht & Htl)] | (_ & _ & n & Ht)]; rewrite Ht in Hin.
    - apply elem_of_app in Hin as [Hin | Hin]; [exact Hin |]. exfalso.
      destruct Htl as [-> | [[p ->] | (p & s & -> & _)]].
      + by apply elem_of_nil in Hin.
      + apply list_elem_of_singleton in Hin. discriminate.
      + apply elem_of_cons in Hin as [Hin | Hin]; [discriminate |].
        apply list_elem_of_singleton in Hin. discriminate.
    - by apply (subseteq_take n) in Hin. }
  unfold setup_events in Hsetup.
  apply elem_of_cons in Hsetup as [[= -> -> ->] | Hsetup]; [split; auto |].
  apply elem_of_cons in Hsetup as [[= -> -> ->] | Hsetup]; [split; auto |].
  apply elem_of_cons in Hsetup as [[= -> -> ->] | Hsetup]; [split; auto |].
  repeat (apply elem_of_cons in Hsetup as [Hsetup | Hsetup]; [discriminate |]).
  by apply elem_of_nil in Hsetup.
Qed.

Lemma ceilings_are_hard_witness :
  104857600 = 104857600 /\
  ((RLIMIT_AS = RLIMIT_CPU /\ 104857600 = 2) \/
   (RLIMIT_AS = RLIMIT_AS /\ 104857600 = 104857600) \/
   (RLIMIT_AS = RLIMIT_FSIZE /\ 104857600 = 5242880)).
Proof.
  apply (ceilings_are_hard willing_host RLIMIT_AS 104857600 104857600).
  apply list_elem_of_In. vm_compute. tauto.
Defined.

(** X4.  The filter decides from the name of the call and its first
    argument alone: two calls that agree on both get the same answer,
    whatever their other arguments. *)
Theorem filter_reads_name_and_first_argument (h : host) (sc1 sc2 : syscall) :
  sc_name sc1 = sc_name sc2 ->
  nth 0 (sc_args sc1) 0 = nth 0 (sc_args sc2) 0 ->
  filter_action (flt h) sc1 = filter_action (flt h) sc2.
Proof.
  intros Hn Ha. rewrite !SandboxRunnerSpec.filter_action_flt.
  unfold rule_matches, arg_matches.
  cbn [rule_syscall rule_args forallb arg_index arg_op arg_datum cmp_holds].
  by rewrite Hn, Ha.
Qed.

Lemma filter_reads_name_and_first_argument_witness :
  filter_action (flt willing_host) (mkSyscall "write" [1; 4096; 10])
  = filter_action (flt willing_host) (mkSyscall "write" [1; 8192; 99; 7]).
Proof.
  apply filter_reads_name_and_first_argument; reflexivity.
Defined.

End SandboxRunnerExtra.

(** ** user_group.py: which names are chosen *)
Module UserGroupExtra.
Import UserGroup.

Lemma _get_user_from_first (db : accounts) (names : list string) (u : string) :
  _get_user_from db names = Some u <->
  exists before after, names = before ++ u :: after /\
    is_Some (getpwnam db u) /\ forall v, v ∈ before -> getpwnam db v = None.
Proof.
  split.
  - revert u. induction names as [| n names IH]; intros u; cbn; [discriminate |].
    destruct (getpwnam db n) as [e |] eqn:E.
    + intros [= <-]. rewrite (UserGroupSpec.getpwnam_name _ _ _ E).
      exists [], names. split; [reflexivity |]. split; [by eexists |].
      intros v Hv. by apply elem_of_nil in Hv.
    + intros H. destruct (IH u H) as (before & after & -> & Hu & Hb).
      exists (n :: before), after. split; [reflexivity |]. split; [exact Hu |].
      intros v [-> | Hv]%elem_of_cons; auto.
  - intros (before & after & -> & [e He] & Hb).
    induction before as [| b before IH]; cbn.
    + rewrite He. by rewrite (UserGroupSpec.getpwnam_name _ _ _ He).
    + rewrite (Hb b) by apply list_elem_of_here.
      apply IH. intros v Hv. apply Hb. by apply list_elem_of_further.
Qed.

Lemma _get_group_from_first (db : accounts) (names : list string) (g : string) :
  _get_group_from db names = Some g <->
  exists before after, names = before ++ g :: after /\
    is_Some (getgrnam db g) /\ forall v, v ∈ before -> getgrnam db v = None.
Proof.
  split.
  - revert g. induction names as [| n names IH]; intros g; cbn; [discriminate |].
    destruct (getgrnam db n) as [e |] eqn:E.
    + intros [= <-]. rewrite (UserGroupSpec.getgrnam_name _ _ _ E).
      exists [], names. split; [reflexivity |]. split; [by eexists |].
      intros v Hv. by apply elem_of_nil in Hv.
    + intros H. destruct (IH g H) as (before & after & -> & Hg & Hb).
      exists (n :: before), after. split; [reflexivity |]. split; [exact Hg |].
      intros v [-> | Hv]%elem_of_cons; auto.
  - intros (before & after & -> & [e He] & Hb).
    induction before as [| b before IH]; cbn.
    + rewrite He. by rewrite (UserGroupSpec.getgrnam_name _ _ _ He).
    + rewrite (Hb b) by apply list_elem_of_here.
      apply IH. intros v Hv. apply Hb. by apply list_elem_of_further.
Qed.

Lemma _get_user_from_none (db : accounts) (names : list string) :
  _get_user_from db names = None <-> forall v, v ∈ names -> getpwnam db v = None.
Proof.
  induction names as [| n names IH]; cbn.
  - split; [| done]. intros _ v Hv. by apply elem_of_nil in Hv.
  - destruct (getpwnam db n) as [e |] eqn:E.
    + split; [discriminate |]. intros H.
      specialize (H n (list_elem_of_here _ _)). congruence.
    + rewrite IH. split.
      * intros H v [-> | Hv]%elem_of_cons; auto.
      * intros H v Hv. apply H. by apply list_elem_of_further.
Qed.

Lemma _get_group_from_none (db : accounts) (names : list string) :
  _get_group_from db names = None <-> forall v, v ∈ names -> getgrnam db v = None.
Proof.
  induction names as [| n names IH]; cbn.
  - split; [| done]. intros _ v Hv. by apply elem_of_nil in Hv.
  - destruct (getgrnam db n) as [e |] eqn:E.
    + split; [discriminate |]. intros H.
      specialize (H n (list_elem_of_here _ _)). congruence.
    + rewrite IH. split.
      * intros H v [-> | Hv]%elem_of_cons; auto.
      * intros H v Hv. apply H. by apply list_elem_of_further.
Qed.

(** X5.  [_get_user] answers the first name of the candidate list that
    has a passwd entry: a name is returned exactly when it has an entry
    and no candidate before it has one, and [None] exactly when no
    candidate has an entry. *)
Theorem get_user_first_candidate (db : accounts) (u : string) :
  (_get_user db = Some u <->
     exists before after, possible_users = before ++ u :: after /\
       is_Some (getpwnam db u) /\ forall v, v ∈ before -> getpwnam db v = None) /\
  (_get_user db = None <-> forall v, v ∈ possible_users -> getpwnam db v = None).
Proof.
  split; [apply _get_user_from_first | apply _get_user_from_none].
Qed.

(** X6.  [_get_group] answers the first name of the candidate list that
    has a group entry, and [None] exactly when no candidate has one. *)
Theorem get_group_first_candidate (db : accounts) (g : string) :
  (_get_group db = Some g <->
     exists before after, possible_groups = before ++ g :: after /\
       is_Some (getgrnam db g) /\ forall v, v ∈ before -> getgrnam db v = None) /\
  (_get_group db = None <-> forall v, v ∈ possible_groups -> getgrnam db v = None).
Proof.
  split; [apply _get_group_from_first | apply _get_group_from_none].
Qed.

Lemma get_user_first_candidate_witness :
  _get_user (mkAccounts [mkPasswd "root" 0; mkPasswd "daemon" 1; mkPasswd "www-data" 33]
                        [mkGroup "root" 0])
  = Some "www-data".
Proof.
  apply (proj1 (get_user_first_candidate _ "www-data")).
  exists ["nobody"], ["daemon"; "nginx"; "apache"].
  split; [reflexivity |]. split; [by eexists |].
  intros v Hv. apply list_elem_of_singleton in Hv. by subst.
Defined.

Lemma get_group_first_candidate_witness :
  _get_group (mkAccounts [mkPasswd "root" 0]
                         [mkGroup "root" 0; mkGroup "daemon" 1; mkGroup "nogroup" 65534])
  = Some "nogroup".
Proof.
  apply (proj1 (get_group_first_candidate _ "nogroup")).
  exists ["nobody"], ["www-data"; "daemon"; "nginx"; "apache"].
  split; [reflexivity |]. split; [by eexists |].
  intros v Hv. apply list_elem_of_singleton in Hv. by subst.
Defined.

Lemma not_a_candidate_user : "65534" ∉ possible_users.
Proof.
  unfold possible_users. intros H.
  by repeat (apply elem_of_cons in H as [H | H]; [discriminate |]);
    apply elem_of_nil in H.
Qed.

(** X7.  The numeric fallback is used exactly when no candidate user
    has a passwd entry or no candidate group has a group entry. *)
Theorem fallback_iff_no_candidate (db : accounts) :
  _get_user_group db = ("65534", "65534") <->
  (forall v, v ∈ possible_users -> getpwnam db v = None) \/
  (forall v, v ∈ possible_groups -> getgrnam db v = None).
Proof.
  rewrite <- (_get_user_from_none db possible_users),
          <- (_get_group_from_none db possible_groups).
  fold (_get_user db) (_get_group db).
  unfold _get_user_group.
  destruct (_get_user db) as [u |] eqn:Eu; destruct (_get_group db) as [g |] eqn:Eg.
  - pose proof (UserGroupSpec._get_user_from_elem _ _ _ Eu) as Hu.
    pose proof (UserGroupSpec._get_group_from_elem _ _ _ Eg) as Hg.
    rewrite (UserGroupSpec.truthy_candidate _ _ UserGroupSpec.possible_users_nonempty Hu).
    rewrite (UserGroupSpec.truthy_candidate _ _ UserGroupSpec.possible_groups_nonempty Hg).
    cbn [negb orb default]. split.
    + intros [= -> _]. by apply not_a_candidate_user in Hu.
    + intros [? | ?]; discriminate.
  - rewrite orb_true_r. split; auto.
  - cbn [truthy negb orb]. split; auto.
  - cbn [truthy negb orb]. split; auto.
Qed.

Lemma fallback_iff_no_candidate_witness :
  _get_user_group (mkAccounts [mkPasswd "root" 0; mkPasswd "nobody" 65534]
                              [mkGroup "root" 0; mkGroup "users" 100])
  = ("65534", "65534").
Proof.
  apply (proj2 (fallback_iff_no_candidate _)). right.
  intros v Hv. unfold possible_groups in Hv.
  repeat (apply elem_of_cons in Hv as [-> | Hv]; [reflexivity |]).
  by apply elem_of_nil in Hv.
Defined.

Lemma _get_user_from_agree (db1 db2 : accounts) (names : list string) :
  (forall v, v ∈ names -> (is_Some (getpwnam db1 v) <-> is_Some (getpwnam db2 v))) ->
  _get_user_from db1 names = _get_user_from db2 names.
Proof.
  induction names as [| n names IH]; intros H; cbn; [reflexivity |].
  pose proof (H n (list_elem_of_here _ _)) as Hn.
  destruct (getpwnam db1 n) as [e1 |] eqn:E1; destruct (getpwnam db2 n) as [e2 |] eqn:E2.
  - by rewrite (UserGroupSpec.getpwnam_name _ _ _ E1),
               (UserGroupSpec.getpwnam_name _ _ _ E2).
  - destruct (proj1 Hn) as [? ?]; [by eexists | discriminate].
  - destruct (proj2 Hn) as [? ?]; [by eexists | discriminate].
  - apply IH. intros v Hv. apply H. by apply list_elem_of_further.
Qed.

Lemma _get_group_from_agree (db1 db2 : accounts) (names : list string) :
  (forall v, v ∈ names -> (is_Some (getgrnam db1 v) <-> is_Some (getgrnam db2 v))) ->
  _get_group_from db1 names = _get_group_from db2 names.
Proof.
  induction names as [| n names IH]; intros H; cbn; [reflexivity |].
  pose proof (H n (list_elem_of_here _ _)) as Hn.
  destruct (getgrnam db1 n) as [e1 |] eqn:E1; destruct (getgrnam db2 n) as [e2 |] eqn:E2.
  - by rewrite (UserGroupSpec.getgrnam_name _ _ _ E1),
               (UserGroupSpec.getgrnam_name _ _ _ E2).
  - destruct (proj1 Hn) as [? ?]; [by eexists | discriminate].
  - destruct (proj2 Hn) as [? ?]; [by eexists | discriminate].
  - apply IH. intros v Hv. apply H. by apply list_elem_of_further.
Qed.

(** X8.  The resolution looks at names only: two hosts on which the
    same candidate users and the same candidate groups exist resolve to
    the same pair, whatever the numeric ids of those accounts and
    whatever other accounts there are. *)
Theorem resolution_reads_names_only (db1 db2 : accounts) :
  (forall v, v ∈ possible_users ->
     (is_Some (getpwnam db1 v) <-> is_Some (getpwnam db2 v))) ->
  (forall v, v ∈ possible_groups ->
     (is_Some (getgrnam db1 v) <-> is_Some (getgrnam db2 v))) ->
  _get_user_group db1 = _get_user_group db2.
Proof.
  intros Hu Hg. unfold _get_user_group, _get_user, _get_group.
  by rewrite (_get_user_from_agree db1 db2 possible_users Hu),
             (_get_group_from_agree db1 db2 possible_groups Hg).
Qed.

(** A host whose [nobody] and [nogroup] carry the ids of root. *)
Lemma resolution_reads_names_only_witness :
  _get_user_group (mkAccounts [mkPasswd "nobody" 0] [mkGroup "nogroup" 0])
  = _get_user_group
      (mkAccounts [mkPasswd "root" 0; mkPasswd "nobody" 65534]
                  [mkGroup "root" 0; mkGroup "nogroup" 65534]).
Proof.
  apply resolution_reads_names_only.
  - intros v Hv. unfold possible_users in Hv.
    repeat (apply elem_of_cons in Hv as [-> | Hv];
            [split; intros [x Hx]; first [discriminate Hx | by eexists] |]).
    by apply elem_of_nil in Hv.
  - intros v Hv. unfold possible_groups in Hv.
    repeat (apply elem_of_cons in Hv as [-> | Hv];
            [split; intros [x Hx]; first [discriminate Hx | by eexists] |]).
    by apply elem_of_nil in Hv.
Defined.

End UserGroupExtra.

(** ** api.py: the answers of [/execute] and what a request leaves behind *)
Module ApiExtra.
Import Stdlib.Strings.Ascii.
Import Schema Api.

Section Replies.
Variables user group : string.
Variables (e : env) (request : CodeRequest).

(** The cases of the answer, by what the environment lets through. *)
Lemma status_cases (w : world) :
  (http_status (fst (execute_code user group e request w)) = 200 <->
     exists d pid, mkdtemp e = Some d /\ (d ∉ dirs w) /\ write_ok e = true /\
       spawn e = Some pid /\
       forall ex, observe e = Failed ex -> ex = TimeoutExpired) /\
  (http_status (fst (execute_code user group e request w)) = 200 \/
   exists msg, fst (execute_code user group e request w)
               = HTTPException 500 ("Internal server error: " +:+ msg)).
Proof.
  destruct (mkdtemp e) as [d |] eqn:Hd.
  2: { destruct (ApiSpec.execute_code_no_dir user group e request w) as [ex ->];
         [by left |]. cbn. split; [| right; by eexists].
       split; [discriminate |]. intros (d & pid & ? & _). discriminate. }
  destruct (decide (d ∈ dirs w)) as [Hin | Hn].
  { destruct (ApiSpec.execute_code_no_dir user group e request w) as [ex ->];
      [right; eauto |]. cbn. split; [| right; by eexists].
    split; [discriminate |]. intros (d' & pid & [= <-] & Hn & _). contradiction. }
  destruct (write_ok e) eqn:Hw.
  2: { rewrite (ApiSpec.execute_code_write_failed user group e request w d) by done.
       cbn. split; [| right; by eexists].
       split; [discriminate |]. intros (d' & pid & _ & _ & ? & _). discriminate. }
  destruct (spawn e) as [pid |] eqn:Hs.
  2: { rewrite (ApiSpec.execute_code_spawn_failed user group e request w d) by done.
       cbn. split; [| right; by eexists].
       split; [discriminate |]. intros (d' & pid & _ & _ & _ & ? & _). discriminate. }
  destruct (observe e) as [out err rc | ds | ex] eqn:Ho.
  - rewrite (ApiSpec.execute_code_exited user group e request w d pid out err rc)
      by done.
    cbn. split; [| by left]. split; [| done]. intros _.
    exists d, pid. repeat (split; [done |]). discriminate.
  - rewrite (ApiSpec.execute_code_expired user group e request w d pid ds) by done.
    cbn. split; [| by left]. split; [| done]. intros _.
    exists d, pid. repeat (split; [done |]). discriminate.
  - rewrite (ApiSpec.execute_code_failed user group e request w d pid ex) by done.
    destruct ex; cbn; (split; [| first [by left | right; by eexists]]);
      (split; [first [discriminate | intros _] | first [done | idtac]]);
      try (exists d, pid; repeat (split; [done |]); by intros ? [= <-]);
      intros (d' & pid' & _ & _ & _ & _ & Hex); by specialize (Hex _ eq_refl).
Qed.

(** X9.  The answer of [/execute] has status 200 or 500.  It is 200
    exactly when the directory was created, the source written, the
    child started, the wait ended by exit or by timeout, and the
    directory was removed afterwards; a 500 carries a detail that
    starts with "Internal server error: ". *)
Theorem reply_status (rmtree_ok : bool) (w : world) :
  (http_status (fst (execute_code_os user group e rmtree_ok request w)) = 200 <->
     rmtree_ok = true /\
     exists d pid, mkdtemp e = Some d /\ (d ∉ dirs w) /\ write_ok e = true /\
       spawn e = Some pid /\
       forall ex, observe e = Failed ex -> ex = TimeoutExpired) /\
  (http_status (fst (execute_code_os user group e rmtree_ok request w)) = 200 \/
   exists msg, fst (execute_code_os user group e rmtree_ok request w)
               = HTTPException 500 ("Internal server error: " +:+ msg)).
Proof.
  destruct rmtree_ok.
  - rewrite ApiSpec.execute_code_os_removable.
    destruct (status_cases w) as [Hiff Hcases]. split; [| exact Hcases].
    rewrite Hiff. split; [by intros H | by intros [_ H]].
  - assert (H500 : exists msg,
               fst (execute_code_os user group e false request w)
               = HTTPException 500 ("Internal server error: " +:+ msg)).
    { destruct (mkdtemp e) as [d |] eqn:Hd.
      2: { unfold execute_code_os, with_TemporaryDirectory_os. rewrite Hd.
           by eexists. }
      destruct (decide (d ∈ dirs w)) as [Hin | Hn].
      { unfold execute_code_os, with_TemporaryDirectory_os. rewrite Hd.
        rewrite decide_True by done. by eexists. }
      rewrite (ApiSpec.execute_code_os_refused user group e request w d Hd Hn).
      by eexists. }
    destruct H500 as [msg ->]. cbn. split; [| right; by eexists].
    split; [discriminate | by intros [? _]].
Qed.


End Replies.

Lemma reply_status_witness :
  http_status (fst (execute_code_os "nobody" "nogroup" hello_env true hello_request
                      empty_world)) = 200.
Proof.
  apply (proj1 (reply_status "nobody" "nogroup" hello_env hello_request true
                  empty_world)).
  split; [reflexivity |]. exists "/tmp/tmpa1", 4242.
  split; [reflexivity |]. split; [apply ApiSpec.fresh_in_empty_world |].
  split; [reflexivity |]. split; [reflexivity |]. discriminate.
Defined.


(** *** Projections of the final world *)

Lemma files_add_descendants (pid : Z) (ds : list Z) (w : world) :
  files (add_descendants pid ds w) = files w.
Proof. induction ds as [| d ds IH]; [reflexivity | exact IH]. Qed.


Section Frame.
Variables user group : string.
Variables (e : env) (request : CodeRequest) (w : world).

Local Abbreviation outcome := (outcome user group e request w).





End Frame.


(** X14.  Inside the [with] block, once the source file is written it
    holds exactly the submitted code until the block ends, and a child
    is started only after that write, with this file as its last
    argument. *)
Theorem script_holds_code (user group : string) (e : env)
    (request : CodeRequest) (d : string) (w0 : world) :
  (write_ok e = true ->
   files (snd (run_in user group e request d w0)) !! file_path e d
     = Some (code request)) /\
  (forall c pid,
     EvPopen c pid ∈ new_events w0 (snd (run_in user group e request d w0)) ->
     write_ok e = true /\ last c = Some (file_path e d)).
Proof.
  unfold run_in, open_write, Popen, try_except_TimeoutExpired, communicate, kill,
    bind, modify, ret, raise.
  destruct (write_ok e); cbn.
  2: { split; [discriminate |]. intros c pid Hin.
       rewrite (ApiSpec.new_events_app w0 w0 []) in Hin by (by rewrite app_nil_r).
       by apply elem_of_nil in Hin. }
  destruct (spawn e) as [pid |]; cbn.
  2: { split; [intros _; apply lookup_insert_eq |]. intros c pid Hin.
       rewrite (ApiSpec.new_events_app w0 _ []) in Hin by (by rewrite app_nil_r).
       by apply elem_of_nil in Hin. }
  destruct (observe e) as [out err rc | ds | ex]; cbn.
  - split; [intros _; apply lookup_insert_eq |]. intros c pid' Hin.
    erewrite ApiSpec.new_events_app in Hin by (cbn; by rewrite <- app_assoc).
    apply elem_of_cons in Hin as [[= -> ->] | Hin]; [by split |].
    apply list_elem_of_singleton in Hin. discriminate.
  - split; [intros _; rewrite files_add_descendants; apply lookup_insert_eq |].
    intros c pid' Hin.
    erewrite ApiSpec.new_events_app in Hin
      by (cbn; rewrite ApiSpec.log_add_descendants; cbn; by rewrite <- !app_assoc).
    apply elem_of_cons in Hin as [[= -> ->] | Hin]; [by split |].
    apply elem_of_cons in Hin as [Hin | Hin]; [discriminate |].
    apply list_elem_of_singleton in Hin. discriminate.
  - destruct ex; cbn; (split; [intros _; apply lookup_insert_eq |]);
      intros c pid' Hin;
      (erewrite ApiSpec.new_events_app in Hin
         by (cbn; by rewrite <- ?app_assoc));
      (apply elem_of_cons in Hin as [[= -> ->] | Hin]; [by split |]);
      repeat (apply elem_of_cons in Hin as [Hin | Hin]; [discriminate |]);
      by apply elem_of_nil in Hin.
Qed.

Lemma script_holds_code_witness :
  files (snd (run_in "nobody" "nogroup" hello_env hello_request "/tmp/tmpa1"
                (add_dir "/tmp/tmpa1" empty_world)))
    !! "/tmp/tmpa1/6f1c.py"
  = Some "print('Hello, World!')".
Proof.
  apply (proj1 (script_holds_code "nobody" "nogroup" hello_env hello_request
                  "/tmp/tmpa1" (add_dir "/tmp/tmpa1" empty_world))).
  reflexivity.
Defined.

(** X15.  The answer to a timeout is not peculiar to timeouts: a child
    that exits by itself with return code -1, nothing on standard
    output and the marker on standard error gets the very same
    answer. *)
Theorem timeout_answer_is_ambiguous (user group : string) (e1 e2 : env)
    (request : CodeRequest) (w : world) (ds : list Z) :
  uuid4 e1 = uuid4 e2 -> mkdtemp e1 = mkdtemp e2 -> write_ok e1 = write_ok e2 ->
  spawn e1 = spawn e2 ->
  observe e1 = Expired ds -> observe e2 = Exited "" "Execution timed out" (-1) ->
  fst (execute_code user group e1 request w)
  = fst (execute_code user group e2 request w).
Proof.
  intros Hu Hm Hw Hs Ho1 Ho2.
  destruct (mkdtemp e1) as [d |] eqn:Hd.
  2: { unfold execute_code, with_TemporaryDirectory. by rewrite Hd, <- Hm. }
  destruct (decide (d ∈ dirs w)) as [Hin | Hn].
  { unfold execute_code, with_TemporaryDirectory. rewrite Hd, <- Hm.
    by rewrite !decide_True. }
  destruct (write_ok e1) eqn:Hw1.
  2: { rewrite (ApiSpec.execute_code_write_failed user group e1 request w d),
               (ApiSpec.execute_code_write_failed user group e2 request w d)
         by done.
       cbn. unfold file_path. by rewrite Hu. }
  destruct (spawn e1) as [pid |] eqn:Hs1.
  2: { by rewrite (ApiSpec.execute_code_spawn_failed user group e1 request w d),
                  (ApiSpec.execute_code_spawn_failed user group e2 request w d). }
  by rewrite (ApiSpec.execute_code_expired user group e1 request w d pid ds),
             (ApiSpec.execute_code_exited user group e2 request w d pid
                "" "Execution timed out" (-1)).
Qed.

Lemma timeout_answer_is_ambiguous_witness :
  fst (execute_code "nobody" "nogroup" runaway_env loop_request empty_world)
  = fst (execute_code "nobody" "nogroup"
           (mkEnv "6f1c" (Some "/tmp/tmpa1") true (Some 4242)
                  (Exited "" "Execution timed out" (-1)))
           loop_request empty_world).
Proof.
  apply (timeout_answer_is_ambiguous "nobody" "nogroup" runaway_env _ loop_request
           empty_world [4243]); reflexivity.
Defined.

(** X20.  With the identity resolved by [user_group.py], every child of
    [/execute] is started with a [--user] that is "65534" or one of the
    candidate users and a [--group] that is "65534" or one of the
    candidate groups; the jail is never asked to run the guest as
    root. *)
Theorem jail_identity_is_unprivileged (db : UserGroup.accounts) (e : env)
    (request : CodeRequest) (w : world) (c : list string) (pid : Z) :
  EvPopen c pid
    ∈ new_events w (snd (execute_code (UserGroup.UNPRIVILEGED_USER db)
                           (UserGroup.UNPRIVILEGED_GROUP db) e request w)) ->
  exists u g, Jail.value_of "--user" (Jail.options c) = Some u /\
              Jail.value_of "--group" (Jail.options c) = Some g /\
              u ∈ "65534" :: UserGroup.possible_users /\
              g ∈ "65534" :: UserGroup.possible_groups /\
              u <> "root" /\ g <> "root".
Proof.
  intros Hin. apply ApiSpec.popen_command in Hin as (d & _ & _ & _ & ->).
  exists (UserGroup.UNPRIVILEGED_USER db), (UserGroup.UNPRIVILEGED_GROUP db).
  split; [reflexivity |]. split; [reflexivity |].
  assert (Hcand : UserGroup.UNPRIVILEGED_USER db ∈ "65534" :: UserGroup.possible_users /\
                  UserGroup.UNPRIVILEGED_GROUP db ∈ "65534" :: UserGroup.possible_groups).
  { unfold UserGroup.UNPRIVILEGED_USER, UserGroup.UNPRIVILEGED_GROUP,
      UserGroup._get_user_group.
    destruct (UserGroup._get_user db) as [u |] eqn:Eu;
      destruct (UserGroup._get_group db) as [g |] eqn:Eg;
      try (rewrite ?orb_true_r; cbn; split; apply list_elem_of_here).
    pose proof (UserGroupSpec._get_user_from_elem _ _ _ Eu) as Hu.
    pose proof (UserGroupSpec._get_group_from_elem _ _ _ Eg) as Hg.
    rewrite (UserGroupSpec.truthy_candidate _ _
               UserGroupSpec.possible_users_nonempty Hu).
    rewrite (UserGroupSpec.truthy_candidate _ _
               UserGroupSpec.possible_groups_nonempty Hg).
    cbn. split; by apply list_elem_of_further. }
  destruct Hcand as [Hu Hg]. repeat split; try done.
  - intros Hr. rewrite Hr in Hu. unfold UserGroup.possible_users in Hu.
    by repeat (apply elem_of_cons in Hu as [Hu | Hu]; [discriminate |]);
      apply elem_of_nil in Hu.
  - intros Hr. rewrite Hr in Hg. unfold UserGroup.possible_groups in Hg.
    by repeat (apply elem_of_cons in Hg as [Hg | Hg]; [discriminate |]);
      apply elem_of_nil in Hg.
Qed.

Lemma jail_identity_is_unprivileged_witness :
  exists u g,
    Jail.value_of "--user"
      (Jail.options
         (command (UserGroup.UNPRIVILEGED_USER UserGroup.lonely_nobody)
            (UserGroup.UNPRIVILEGED_GROUP UserGroup.lonely_nobody)
            hello_env hello_request "/tmp/tmpa1")) = Some u /\
    Jail.value_of "--group"
      (Jail.options
         (command (UserGroup.UNPRIVILEGED_USER UserGroup.lonely_nobody)
            (UserGroup.UNPRIVILEGED_GROUP UserGroup.lonely_nobody)
            hello_env hello_request "/tmp/tmpa1")) = Some g /\
    u <> "root" /\ g <> "root".
Proof.
  destruct (jail_identity_is_unprivileged UserGroup.lonely_nobody hello_env
              hello_request empty_world
              (command (UserGroup.UNPRIVILEGED_USER UserGroup.lonely_nobody)
                 (UserGroup.UNPRIVILEGED_GROUP UserGroup.lonely_nobody)
                 hello_env hello_request "/tmp/tmpa1")
              4242) as (u & g & Hu & Hg & _ & _ & Hur & Hgr).
  - rewrite ApiSpec.hello_events. apply list_elem_of_here.
  - by exists u, g.
Defined.

End ApiExtra.

(** ** api.py: the [/test] endpoint *)
Module TestEndpointSpec.
Import Schema Api TestEndpoint.

Example dirname_of_temp_file : os_path_dirname "/tmp/tmpq7.py" = "/tmp".
Proof. reflexivity. Qed.

Example dirname_at_root : os_path_dirname "/tmpq7.py" = "/".
Proof. reflexivity. Qed.

Example dirname_without_directory : os_path_dirname "tmpq7.py" = "".
Proof. reflexivity. Qed.

Example dirname_double_slash : os_path_dirname "/var//tmp//x.py" = "/var//tmp".
Proof. reflexivity. Qed.

(** Unfolds the endpoint down to the answers of the environment. *)
Ltac run_test :=
  unfold test_endpoint, test_body, NamedTemporaryFile_write, subprocess_run,
    os_unlink, kill, wait, bind, modify, ret, raise.

(** X16.  [/test] returns its report exactly when every step went
    through: the file was created and written, both children were
    started and exited before their deadlines, and the file was
    unlinked; the report carries the output of both runs unchanged. *)
Theorem test_report_iff (user group : string) (t : test_env) (w : world)
    (p1 p2 : CompletedProcess) (u g : string) :
  fst (test_endpoint user group t w) = Report p1 p2 u g <->
  u = user /\ g = group /\
  exists path pid1 pid2,
    temp_name t = Some path /\ files w !! path = None /\
    temp_write_ok t = true /\
    child_spawn (direct t) = Some pid1 /\
    child_observe (direct t)
      = Exited (cp_stdout p1) (cp_stderr p1) (cp_returncode p1) /\
    child_spawn (jailed t) = Some pid2 /\
    child_observe (jailed t)
      = Exited (cp_stdout p2) (cp_stderr p2) (cp_returncode p2) /\
    unlink_ok t = true.
Proof.
  split.
  - run_test.
    destruct (temp_name t) as [path |]; [| discriminate].
    destruct (decide (is_Some (files w !! path))) as [Hex | Hfree]; [discriminate |].
    destruct (temp_write_ok t); [| discriminate].
    destruct (direct t) as [[pid1 |] o1]; cbn [child_spawn child_observe];
      [| discriminate].
    destruct o1 as [out1 err1 rc1 | ds1 | ex1]; cbn [fst]; try discriminate.
    destruct (jailed t) as [[pid2 |] o2]; cbn [child_spawn child_observe];
      [| discriminate].
    destruct o2 as [out2 err2 rc2 | ds2 | ex2]; cbn [fst]; try discriminate.
    destruct (unlink_ok t); cbn [fst]; [| discriminate].
    intros [= <- <- <- <-]. repeat split.
    exists path, pid1, pid2. repeat split.
    by apply eq_None_not_Some.
  - intros (-> & -> & path & pid1 & pid2 & Hp & Hf & Hw & Hs1 & Ho1 & Hs2 & Ho2 & Hu).
    run_test. rewrite Hp, Hw, Hs1, Ho1, Hs2, Ho2, Hu.
    rewrite decide_False by (rewrite Hf; by intros [? ?]).
    cbn [fst]. by destruct p1, p2.
Qed.

Lemma test_report_iff_witness :
  fst (test_endpoint "nobody" "nogroup" healthy_test_env empty_world)
  = Report (mkCompleted hello_output "" 0) (mkCompleted hello_output "" 0)
      "nobody" "nogroup".
Proof.
  apply (proj2 (test_report_iff "nobody" "nogroup" healthy_test_env empty_world
                  (mkCompleted hello_output "" 0) (mkCompleted hello_output "" 0)
                  "nobody" "nogroup")).
  repeat split. exists "/tmp/tmpq7.py", 500, 501. repeat split.
Defined.

(** *** What each step does to the world *)

Lemma temp_file_created (t : test_env) (content : string) (w w0 : world)
    (path : string) :
  NamedTemporaryFile_write t content w = (inr path, w0) ->
  temp_name t = Some path /\ files w !! path = None /\
  temp_write_ok t = true /\ w0 = put_file path content w.
Proof.
  unfold NamedTemporaryFile_write.
  destruct (temp_name t) as [p |]; [| discriminate].
  destruct (decide (is_Some (files w !! p))) as [Hex | Hfree]; [discriminate |].
  destruct (temp_write_ok t); [| discriminate].
  intros [= <- <-]. repeat split. by apply eq_None_not_Some.
Qed.

Lemma temp_file_failed (t : test_env) (content : string) (w w0 : world)
    (ex : exn) (path : string) :
  NamedTemporaryFile_write t content w = (inl ex, w0) ->
  temp_name t = Some path -> files w !! path = None ->
  temp_write_ok t = false /\ w0 = put_file path "" w.
Proof.
  unfold NamedTemporaryFile_write. intros H Hp Hf. rewrite Hp in H.
  rewrite decide_False in H by (rewrite Hf; by intros [? ?]).
  destruct (temp_write_ok t); [discriminate |]. by injection H as _ <-.
Qed.

Lemma subprocess_run_files (c : child) (cmd : list string) (timeout : Z)
    (w0 w1 : world) (r : exn + CompletedProcess) :
  subprocess_run c cmd timeout w0 = (r, w1) -> files w1 = files w0.
Proof.
  unfold subprocess_run, kill, wait, bind, modify, ret, raise.
  destruct (child_spawn c) as [pid |]; [| by intros [= _ <-]].
  destruct (child_observe c) as [out err rc | ds | ex]; intros [= _ <-];
    cbn; by rewrite ?ApiExtra.files_add_descendants.
Qed.

Lemma os_unlink_done (t : test_env) (path : string) (w2 w3 : world) :
  os_unlink t path w2 = (inr tt, w3) -> files w3 !! path = None.
Proof.
  unfold os_unlink, modify, raise.
  destruct (unlink_ok t); [| discriminate].
  intros [= <-]. apply lookup_delete_eq.
Qed.

Lemma os_unlink_failed (t : test_env) (path : string) (w2 w3 : world) (ex : exn) :
  os_unlink t path w2 = (inl ex, w3) -> w3 = w2.
Proof.
  unfold os_unlink, modify, raise.
  destruct (unlink_ok t); [discriminate |]. by intros [= _ <-].
Qed.

(** X17.  The temporary file of [/test] is removed only on the path
    that returns the report.  On every path that returns an error
    after the file was created (a failed write, a child that cannot be
    started, a timeout or failure of either run, a failed unlink) the
    file is still there when the call is over. *)
Theorem test_file_fate (user group : string) (t : test_env) (w : world)
    (path : string) :
  temp_name t = Some path -> files w !! path = None ->
  (forall p1 p2 u g,
     fst (test_endpoint user group t w) = Report p1 p2 u g ->
     files (snd (test_endpoint user group t w)) !! path = None) /\
  (forall ex,
     fst (test_endpoint user group t w) = Error ex ->
     files (snd (test_endpoint user group t w)) !! path
       = Some (if temp_write_ok t then test_code else "")).
Proof.
  intros Hp Hf. unfold test_endpoint, test_body, bind.
  destruct (NamedTemporaryFile_write t test_code w) as [[ex0 | tp] w0] eqn:E0.
  { destruct (temp_file_failed _ _ _ _ _ _ E0 Hp Hf) as [-> ->]. cbn [fst snd].
    split; [discriminate |]. intros _ _. apply lookup_insert_eq. }
  destruct (temp_file_created _ _ _ _ _ E0) as (Hp' & _ & -> & ->).
  assert (tp = path) as -> by congruence.
  assert (Hkept : forall x, files x = files (put_file path test_code w) ->
                            files x !! path = Some test_code).
  { intros x ->. apply lookup_insert_eq. }
  destruct (subprocess_run (direct t) _ 5 _) as [[ex1 | python] w1] eqn:E1.
  { cbn [fst snd]. split; [discriminate |]. intros _ _.
    apply Hkept. by apply subprocess_run_files in E1. }
  apply subprocess_run_files in E1.
  destruct (subprocess_run (jailed t) _ 6 _) as [[ex2 | process] w2] eqn:E2.
  { cbn [fst snd]. split; [discriminate |]. intros _ _.
    apply Hkept. apply subprocess_run_files in E2. congruence. }
  apply subprocess_run_files in E2.
  destruct (os_unlink t path w2) as [[ex3 | []] w3] eqn:E3; cbn [fst snd ret].
  - apply os_unlink_failed in E3 as ->.
    split; [discriminate |]. intros _ _. apply Hkept. congruence.
  - split; [| discriminate]. intros _ _ _ _ _. by apply os_unlink_done in E3.
Qed.

Lemma test_file_fate_witness :
  files (snd (test_endpoint "nobody" "nogroup" no_jail_test_env empty_world))
    !! "/tmp/tmpq7.py"
  = Some test_code.
Proof.
  apply (proj2 (test_file_fate "nobody" "nogroup" no_jail_test_env empty_world
                  "/tmp/tmpq7.py" eq_refl (lookup_empty _)) (OSError "nsjail")).
  reflexivity.
Defined.

Lemma subprocess_run_ok (c : child) (cmd : list string) (timeout : Z)
    (w0 w1 : world) (cp : CompletedProcess) :
  subprocess_run c cmd timeout w0 = (inr cp, w1) ->
  child_observe c = Exited (cp_stdout cp) (cp_stderr cp) (cp_returncode cp).
Proof.
  unfold subprocess_run, kill, wait, bind, modify, ret, raise.
  destruct (child_spawn c) as [pid |]; [| discriminate].
  destruct (child_observe c) as [out err rc | ds | ex]; [| discriminate..].
  by intros [= <- _].
Qed.

Lemma subprocess_run_log (c : child) (cmd : list string) (timeout : Z)
    (w0 w1 : world) (r : exn + CompletedProcess) :
  subprocess_run c cmd timeout w0 = (r, w1) ->
  exists l, log w1 = log w0 ++ l /\
    forall c' pid, EvPopen c' pid ∈ l -> c' = cmd /\ child_spawn c = Some pid.
Proof.
  unfold subprocess_run, kill, wait, bind, modify, ret, raise.
  destruct (child_spawn c) as [pid |].
  2: { intros [= _ <-]. exists []. split; [by rewrite app_nil_r |].
       intros c' pid H. by apply elem_of_nil in H. }
  assert (Hev : forall (l : list event) c' pid',
            EvPopen c' pid' ∈ EvPopen cmd pid :: EvCommunicate pid timeout :: l ->
            (forall x, x ∈ l -> x = EvSignal pid SIGKILL) ->
            c' = cmd /\ Some pid = Some pid').
  { intros l c' pid' Hin Hl.
    apply elem_of_cons in Hin as [[= -> ->] | Hin]; [done |].
    apply elem_of_cons in Hin as [Hin | Hin]; [discriminate |].
    apply Hl in Hin. discriminate. }
  destruct (child_observe c) as [out err rc | ds | ex]; intros [= _ <-]; cbn;
    rewrite ?ApiSpec.log_add_descendants; cbn; rewrite <- ?app_assoc; cbn.
  - exists [EvPopen cmd pid; EvCommunicate pid timeout]. split; [done |].
    intros c' pid' Hin. apply (Hev [] c' pid' Hin).
    intros x Hx. by apply elem_of_nil in Hx.
  - exists [EvPopen cmd pid; EvCommunicate pid timeout; EvSignal pid SIGKILL].
    split; [done |]. intros c' pid' Hin. apply (Hev _ c' pid' Hin).
    intros x Hx. by apply list_elem_of_singleton in Hx.
  - exists [EvPopen cmd pid; EvCommunicate pid timeout; EvSignal pid SIGKILL].
    split; [done |]. intros c' pid' Hin. apply (Hev _ c' pid' Hin).
    intros x Hx. by apply list_elem_of_singleton in Hx.
Qed.

Lemma temp_file_log (t : test_env) (content : string) (w w0 : world)
    (r : exn + string) :
  NamedTemporaryFile_write t content w = (r, w0) -> log w0 = log w.
Proof.
  unfold NamedTemporaryFile_write.
  destruct (temp_name t) as [p |]; [| by intros [= _ <-]].
  destruct (decide (is_Some (files w !! p))); [by intros [= _ <-] |].
  destruct (temp_write_ok t); by intros [= _ <-].
Qed.

Lemma os_unlink_log (t : test_env) (path : string) (w2 w3 : world)
    (r : exn + unit) :
  os_unlink t path w2 = (r, w3) -> log w3 = log w2.
Proof.
  unfold os_unlink, modify, raise. destruct (unlink_ok t); by intros [= _ <-].
Qed.

(** X18.  [/test] starts at most two children.  One is the interpreter
    on the temporary file with no jail around it.  The other is nsjail,
    started only after the first has exited, with a time limit of 5
    seconds, the directory of the file as working directory and the
    resolved identity, but with no CPU or address-space limit and
    without the switches that hide /proc and the loopback interface. *)
Theorem test_children (user group : string) (t : test_env) (w : world)
    (c : list string) (pid : Z) :
  EvPopen c pid ∈ new_events w (snd (test_endpoint user group t w)) ->
  exists path, temp_name t = Some path /\
    ((c = ["/usr/bin/python3"; path] /\ child_spawn (direct t) = Some pid) \/
     (child_spawn (jailed t) = Some pid /\
      (exists out err rc, child_observe (direct t) = Exited out err rc) /\
      Jail.guest_argv c = ["/usr/bin/python3"; path] /\
      Jail.value_of "--time_limit" (Jail.options c) = Some "5" /\
      Jail.value_of "--cwd" (Jail.options c) = Some (os_path_dirname path) /\
      Jail.value_of "--user" (Jail.options c) = Some user /\
      Jail.value_of "--group" (Jail.options c) = Some group /\
      Jail.value_of "--rlimit_cpu" (Jail.options c) = None /\
      Jail.value_of "--rlimit_as" (Jail.options c) = None /\
      Jail.has_switch "--disable_proc" (Jail.options c) = false /\
      Jail.has_switch "--iface_no_lo" (Jail.options c) = false)).
Proof.
  unfold test_endpoint, test_body, bind.
  destruct (NamedTemporaryFile_write t test_code w) as [[ex0 | path] w0] eqn:E0.
  { apply temp_file_log in E0. cbn [snd]. intros Hin.
    rewrite (ApiSpec.new_events_app w w0 []) in Hin by (by rewrite E0, app_nil_r).
    by apply elem_of_nil in Hin. }
  pose proof (temp_file_log _ _ _ _ _ E0) as L0.
  apply temp_file_created in E0 as (Hp & _ & _ & _).
  intros Hin. exists path. split; [exact Hp |].
  destruct (subprocess_run (direct t) _ 5 w0) as [[ex1 | python] w1] eqn:E1.
  { destruct (subprocess_run_log _ _ _ _ _ _ E1) as (l1 & L1 & H1). cbn [snd] in Hin.
    rewrite (ApiSpec.new_events_app w w1 l1) in Hin by congruence.
    left. by apply H1. }
  destruct (subprocess_run_log _ _ _ _ _ _ E1) as (l1 & L1 & H1).
  apply subprocess_run_ok in E1.
  assert (Hall : forall w', (exists l2, log w' = log w1 ++ l2 /\
                   forall c' pid', EvPopen c' pid' ∈ l2 ->
                     c' = test_nsjail_cmd user group path /\
                     child_spawn (jailed t) = Some pid') ->
                 EvPopen c pid ∈ new_events w w' ->
                 (c = ["/usr/bin/python3"; path] /\ child_spawn (direct t) = Some pid) \/
                 (c = test_nsjail_cmd user group path /\
                  child_spawn (jailed t) = Some pid)).
  { intros w' (l2 & L2 & H2) Hw'.
    rewrite (ApiSpec.new_events_app w w' (l1 ++ l2)) in Hw'
      by (rewrite L2, L1, L0; by rewrite app_assoc).
    apply elem_of_app in Hw' as [Hw' | Hw']; [left; by apply H1 | right; by apply H2]. }
  assert (Hres : (c = ["/usr/bin/python3"; path] /\ child_spawn (direct t) = Some pid) \/
                 (c = test_nsjail_cmd user group path /\
                  child_spawn (jailed t) = Some pid)).
  { destruct (subprocess_run (jailed t) _ 6 w1) as [[ex2 | process] w2] eqn:E2.
    - apply (Hall w2); [by eapply subprocess_run_log | exact Hin].
    - destruct (os_unlink t path w2) as [[ex3 | []] w3] eqn:E3;
        apply os_unlink_log in E3; cbn [snd ret] in Hin;
        (apply (Hall w3); [| exact Hin]);
        destruct (subprocess_run_log _ _ _ _ _ _ E2) as (l2 & L2 & H2);
        exists l2; (split; [congruence | exact H2]). }
  destruct Hres as [Hd | [-> Hj]]; [by left | right].
  split; [exact Hj |]. split; [do 3 eexists; exact E1 |]. repeat split.
Qed.

Lemma test_children_witness :
  exists path, temp_name healthy_test_env = Some path /\
    Jail.value_of "--rlimit_as"
      (Jail.options (test_nsjail_cmd "nobody" "nogroup" "/tmp/tmpq7.py")) = None.
Proof.
  destruct (test_children "nobody" "nogroup" healthy_test_env empty_world
              (test_nsjail_cmd "nobody" "nogroup" "/tmp/tmpq7.py") 501)
    as (path & Hp & [[Hc _] | (_ & _ & _ & _ & _ & _ & _ & _ & Has & _)]).
  - assert (Hlog : new_events empty_world
                     (snd (test_endpoint "nobody" "nogroup" healthy_test_env
                             empty_world))
                   = [EvPopen ["/usr/bin/python3"; "/tmp/tmpq7.py"] 500;
                      EvCommunicate 500 5;
                      EvPopen (test_nsjail_cmd "nobody" "nogroup" "/tmp/tmpq7.py") 501;
                      EvCommunicate 501 6]).
    { apply ApiSpec.new_events_app.
      unfold test_endpoint, test_body, NamedTemporaryFile_write, subprocess_run,
        os_unlink, kill, wait, bind, modify, ret, raise.
      cbn [healthy_test_env temp_name temp_write_ok direct jailed unlink_ok
           child_spawn child_observe].
      change (files empty_world) with (∅ : gmap string string).
      rewrite decide_False by (rewrite lookup_empty; by intros [? ?]).
      reflexivity. }
    rewrite Hlog. apply list_elem_of_further, list_elem_of_further, list_elem_of_here.
  - discriminate Hc.
  - exists path. split; [exact Hp | exact Has].
Defined.

End TestEndpointSpec.
